(** * Azure Batch provider of virtual-kubelet: pods as batch tasks

    A shallow embedding of [providers/azurebatch/batch.go].  The provider
    maps the kubelet's pod operations onto tasks of one Azure Batch job.
    Remote calls thread an explicit world state; Go's [(value, error)]
    returns are pairs, and a Go [panic] is a separate outcome. *)

From stdpp Require Import gmap strings list.
From Equations Require Import Equations.

Open Scope Z_scope.

(** ** Go values: errors, panics, and the monad of provider methods *)

(** A Go [error] value, identified by its message. *)
Inductive error : Type := errorString (msg : string).

#[global] Instance error_eq_dec : EqDecision error.
Proof. solve_decision. Defined.

(** What a goroutine panics with: [panic(err)], or the runtime's nil
    pointer dereference. *)
Inductive PanicValue : Type :=
| PanicError (e : error)
| NilDereference.

(** How a call ends: it returns its results, or it panics. *)
Inductive Result (A : Type) : Type :=
| Return (a : A)
| Panic (v : PanicValue).
Arguments Return {A} a.
Arguments Panic {A} v.

(** A provider method over a remote world [W]. *)
Definition Go (W A : Type) : Type := W → W * Result A.

#[global] Instance Go_ret W : MRet (Go W) := λ A a w, (w, Return a).
#[global] Instance Go_bind W : MBind (Go W) := λ A B f m w,
  match m w with
  | (w', Return a) => f a w'
  | (w', Panic v) => (w', Panic v)
  end.

(** [panic(v)] *)
Definition panic {W A} (v : PanicValue) : Go W A := λ w, (w, Panic v).

(** A remote round trip: it always comes back with its Go results. *)
Definition call {W A} (c : W → W * A) : Go W A :=
  λ w, let '(w', a) := c w in (w', Return a).

(** [*ptr]: dereferencing nil panics. *)
Definition deref {W A} (ptr : option A) : Go W A :=
  match ptr with
  | Some a => mret a
  | None => panic NilDereference
  end.

(** The double quote of the command line template. *)
Definition dquote : string := String (Ascii.ascii_of_nat 34) EmptyString.

(** ** net/http and autorest *)

Module http.
Record Response : Type := { StatusCode : Z }.
Definition StatusNotFound : Z := 404.
Definition StatusConflict : Z := 409.
End http.

Module autorest.
(** [autorest.Response] embeds a [*http.Response], nil when the request
    never got an answer. *)
Definition Response : Type := option http.Response.
End autorest.

(** ** k8s.io/api/core/v1: the part of a pod the provider touches *)

Module v1.
Inductive PodPhase : Type :=
| PodPhaseUnset   (* the zero value, the empty string *)
| PodPending
| PodRunning
| PodSucceeded
| PodFailed
| PodUnknown.

Record Container : Type :=
  { ContainerName : string; Image : string; Command : list string }.

Record Volume : Type := { VolumeName : string }.

Record PodSpec : Type :=
  { Containers : list Container; Volumes : list Volume }.

Record ContainerStatus : Type :=
  { StatusName : string; ContainerPhase : PodPhase }.

Record PodStatus : Type :=
  { Phase : PodPhase;
    StartTime : option Z;
    CompletionTime : option Z;
    ContainerStatuses : list ContainerStatus }.

Record Pod : Type :=
  { Namespace : string;
    Name : string;
    UID : string;
    Spec : PodSpec;
    Status : PodStatus }.

(** [pod.Status = status] *)
Definition setStatus (pod : Pod) (status : PodStatus) : Pod :=
  {| Namespace := Namespace pod; Name := Name pod; UID := UID pod;
     Spec := Spec pod; Status := status |}.

(** The zero value of [PodStatus]. *)
Definition zeroStatus : PodStatus :=
  {| Phase := PodPhaseUnset; StartTime := None; CompletionTime := None;
     ContainerStatuses := [] |}.

#[global] Instance PodPhase_eq_dec : EqDecision PodPhase.
Proof. solve_decision. Defined.
End v1.

(** ** The Azure Batch SDK types and clients *)

Module batch.
Inductive TaskState : Type :=
| TaskStateActive
| TaskStateCompleted
| TaskStatePreparing
| TaskStateRunning.

Record TaskExecutionInformation : Type :=
  { StartTime : option Z; EndTime : option Z; ExitCode : option Z }.

Record EnvironmentSetting : Type := { Name : string; Value : string }.

Inductive ElevationLevel : Type := Admin | NonAdmin.
Inductive AutoUserScope : Type := Pool | Task.

Record AutoUserSpecification : Type :=
  { Scope : AutoUserScope; Elevation : ElevationLevel }.

Record UserIdentity : Type := { AutoUser : option AutoUserSpecification }.

Record TaskAddParameter : Type :=
  { AddID : string;
    AddDisplayName : string;
    AddCommandLine : string;
    AddUserIdentity : option UserIdentity;
    AddEnvironmentSettings : list EnvironmentSetting }.

Record CloudTask : Type :=
  { Response : autorest.Response;
    ID : string;
    DisplayName : string;
    CommandLine : string;
    State : TaskState;
    ExecutionInfo : option TaskExecutionInformation;
    EnvironmentSettings : list EnvironmentSetting }.

(** *** The page iterator returned by [TaskClient.List]

    [ctlr] is the page in hand (empty when the result is empty) and [fn]
    is what the service answers to the successive next-page requests;
    no answer left means the page in hand carries no next link. *)
Inductive PageFetch : Type :=
| PageOk (values : list CloudTask)
| PageErr (e : error).

Record CloudTaskListResultPage : Type :=
  { ctlr : list CloudTask; fn : list PageFetch }.

Definition IsEmpty (page : CloudTaskListResultPage) : bool :=
  bool_decide (length (ctlr page) = 0%nat).

(** The values of the current page, nil when there are none. *)
Definition Values (page : CloudTaskListResultPage) : list CloudTask :=
  if IsEmpty page then [] else ctlr page.

(** True while the enumeration is not complete. *)
Definition NotDone (page : CloudTaskListResultPage) : bool :=
  negb (IsEmpty page).

(** Advance to the next page.  On a failed request the page does not
    advance and the error is returned. *)
Definition Next (page : CloudTaskListResultPage)
  : CloudTaskListResultPage * option error :=
  match fn page with
  | [] => ({| ctlr := []; fn := [] |}, None)
  | PageErr e :: _ => (page, Some e)
  | PageOk values :: rest => ({| ctlr := values; fn := rest |}, None)
  end.

(** What [io.ReadCloser] yields when read to the end. *)
Record ReadCloser : Type := { data : string; readErr : option error }.

Record ReadCloserResult : Type := { ReaderValue : option ReadCloser }.

(** The task and file clients, as capabilities over the remote world. *)
Record TaskClient (W : Type) : Type :=
  { Add : string → TaskAddParameter → W → W * (autorest.Response * option error);
    Delete : string → string → W → W * (autorest.Response * option error);
    Get : string → string → W → W * (CloudTask * option error);
    List : string → W → W * (CloudTaskListResultPage * option error) }.
Arguments Add {W} _ _ _ _.
Arguments Delete {W} _ _ _ _.
Arguments Get {W} _ _ _ _.
Arguments List {W} _ _ _.

Record FileClient (W : Type) : Type :=
  { GetFromTask : string → string → string → W → W * (ReadCloserResult * option error) }.
Arguments GetFromTask {W} _ _ _ _ _.
End batch.

(** [ioutil.ReadAll]: the bytes read and the error that stopped the read. *)
Definition ioutil_ReadAll (r : batch.ReadCloser) : string * option error :=
  (batch.data r, batch.readErr r).

(** ** github.com/lawrencegripper/pod2docker *)

Module pod2docker.
Record PodComponents : Type :=
  { Containers : list v1.Container;
    PodName : string;
    Volumes : list v1.Volume }.
End pod2docker.

(** ** Collaborators outside this file

    The command generator, the JSON codec and the identifier codec are
    called by the provider but defined elsewhere; the provider is
    parametric in them. *)
Class Collaborators : Type :=
  { GetBashCommand : pod2docker.PodComponents → string * option error;
    json_Marshal : v1.Pod → string * option error;
    json_Unmarshal : string → v1.Pod * option error;
    getTaskIDForPod : string → string → string }.

(** ** The provider *)

Definition stdoutFile : string := "stdout.txt".
Definition stderrFile : string := "stderr.txt".
Definition podJsonKey : string := "virtualkubelet_pod".

(** Basic azure config used to interact with ARM resources. *)
Record Config : Type :=
  { ResourceGroup : string;
    PoolID : string;
    JobID : string;
    AccountName : string;
    AccountLocation : string }.

(** The base struct for the Azure Batch provider: its configuration, the
    remote clients, and the [listTasks] function field. *)
Record Provider (W : Type) : Type :=
  { batchConfig : Config;
    taskClient : batch.TaskClient W;
    fileClient : batch.FileClient W;
    listTasks : Go W (option (list batch.CloudTask) * option error) }.
Arguments batchConfig {W} _.
Arguments taskClient {W} _.
Arguments fileClient {W} _.
Arguments listTasks {W} _.

(** How far the pagination loop of [listTasks] is from its end: the
    requests still to answer, plus one while the page in hand has values. *)
Definition pagesLeft (res : batch.CloudTaskListResultPage) : nat :=
  (length (batch.fn res) + (if batch.NotDone res then 1 else 0))%nat.

(** [for res.NotDone() { ... }] of the [listTasks] closure. *)
Equations? listTasks_loop (res : batch.CloudTaskListResultPage)
    (currentTasks : list batch.CloudTask)
  : list batch.CloudTask * option error by wf (pagesLeft res) lt :=
listTasks_loop res currentTasks with Logic.inspect (batch.NotDone res) := {
  | exist _ false _ => (currentTasks, None)
  | exist _ true Hgo with Logic.inspect (batch.Next res) := {
    | exist _ (res', Some err) _ => ([], Some err)
    | exist _ (res', None) Hnext =>
        let pageTasks := batch.Values res' in
        listTasks_loop res'
          (if negb (bool_decide (pageTasks = [])) || negb (bool_decide (length pageTasks = 0%nat))
           then currentTasks ++ pageTasks
           else currentTasks) } }.
Proof.
  unfold pagesLeft. rewrite Hgo. unfold batch.Next in Hnext.
  destruct (batch.fn res) as [|[values|e] rest] eqn:Hfn;
    inversion Hnext; subst; simpl.
  - change (batch.NotDone _) with false. lia.
  - case_match; lia.
Qed.

(** The closure that [NewBatchProvider] stores in [p.listTasks]. *)
Definition NewBatchProvider_listTasks {W} (batchConfig : Config)
    (taskClient : batch.TaskClient W)
  : Go W (option (list batch.CloudTask) * option error) :=
  '(res, err) ← call (batch.List taskClient (JobID batchConfig));
  match err with
  | Some err => mret (Some [], Some err)
  | None =>
      let currentTasks := batch.Values res in
      let '(currentTasks, err) := listTasks_loop res currentTasks in
      match err with
      | Some err => mret (Some [], Some err)
      | None => mret (Some currentTasks, None)
      end
  end.

(** The part of [NewBatchProvider] that wires the clients together. *)
Definition NewBatchProvider {W} (batchConfig : Config)
    (taskClient : batch.TaskClient W) (fileClient : batch.FileClient W)
  : Provider W :=
  {| batchConfig := batchConfig;
     taskClient := taskClient;
     fileClient := fileClient;
     listTasks := NewBatchProvider_listTasks batchConfig taskClient |}.

(** ** Helpers of the package that live next to [batch.go] *)

(** Modelled from the spec: the status translator's phase table
    ([convertTaskToPodStatus] is called by [GetPod] but defined outside
    [batch.go]).  Active and Preparing are Pending, Running is Running,
    Completed is Succeeded on exit code 0 and Failed otherwise; a completed
    task that reports no exit code has not shown exit code 0 and counts as
    Failed. *)
Definition taskPhase (state : batch.TaskState) (exitCode : option Z) : v1.PodPhase :=
  match state with
  | batch.TaskStateActive => v1.PodPending
  | batch.TaskStatePreparing => v1.PodPending
  | batch.TaskStateRunning => v1.PodRunning
  | batch.TaskStateCompleted =>
      match exitCode with
      | Some code => if bool_decide (code = 0) then v1.PodSucceeded else v1.PodFailed
      | None => v1.PodFailed
      end
  end.

(** The exit code a task reports, if any. *)
Definition taskExitCode (task : batch.CloudTask) : option Z :=
  info ← batch.ExecutionInfo task; batch.ExitCode info.

Section provider.
Context `{Collaborators}.

(** Modelled from the spec: reconstruction of the pod embedded in a task
    ([getPodFromTask] is defined outside [batch.go]).  The payload is the
    value of the environment entry named [podJsonKey]; a task without that
    entry, or whose payload does not deserialize, is an error and yields
    no pod. *)
Definition getPodFromTask (task : batch.CloudTask) : option v1.Pod * option error :=
  match List.find (λ s, String.eqb (batch.Name s) podJsonKey)
          (batch.EnvironmentSettings task) with
  | None => (None, Some (errorString "task has no pod json stored in it"))
  | Some s =>
      let '(pod, err) := json_Unmarshal (batch.Value s) in
      match err with
      | Some err => (None, Some err)
      | None => (Some pod, None)
      end
  end.

(** Modelled from the spec: the status translator ([convertTaskToPodStatus]
    is defined outside [batch.go]).  The phase follows [taskPhase]; the
    start and completion times are the task's execution timestamps when
    present; every container declared by the embedded pod gets one entry
    carrying the same phase. *)
Definition convertTaskToPodStatus (task : batch.CloudTask)
  : option v1.PodStatus * option error :=
  let phase := taskPhase (batch.State task) (taskExitCode task) in
  let declared :=
    match getPodFromTask task with
    | (Some pod, _) => v1.Containers (v1.Spec pod)
    | (None, _) => []
    end in
  (Some {| v1.Phase := phase;
           v1.StartTime := info ← batch.ExecutionInfo task; batch.StartTime info;
           v1.CompletionTime := info ← batch.ExecutionInfo task; batch.EndTime info;
           v1.ContainerStatuses :=
             (λ c, {| v1.StatusName := v1.ContainerName c;
                      v1.ContainerPhase := phase |}) <$> declared |},
   None).

Context {W : Type}.

(** CreatePod accepts a Pod definition.  The results of [taskClient.Add]
    are dropped. *)
Definition CreatePod (p : Provider W) (pod : v1.Pod) : Go W (option error) :=
  let '(podCommand, err) :=
    GetBashCommand {| pod2docker.Containers := v1.Containers (v1.Spec pod);
                      pod2docker.PodName := v1.Name pod;
                      pod2docker.Volumes := v1.Volumes (v1.Spec pod) |} in
  match err with
  | Some err => mret (Some err)
  | None =>
      let '(bytes, err) := json_Marshal pod in
      match err with
      | Some err => panic (PanicError err)
      | None =>
          let task :=
            {| batch.AddDisplayName := v1.UID pod;
               batch.AddID := getTaskIDForPod (v1.Namespace pod) (v1.Name pod);
               batch.AddCommandLine := "/bin/bash -c " +:+ dquote +:+ podCommand +:+ dquote;
               batch.AddUserIdentity :=
                 Some {| batch.AutoUser :=
                           Some {| batch.Elevation := batch.Admin;
                                   batch.Scope := batch.Pool |} |};
               batch.AddEnvironmentSettings :=
                 [ {| batch.Name := podJsonKey; batch.Value := bytes |} ] |} in
          _ ← call (batch.Add (taskClient p) (JobID (batchConfig p)) task);
          mret None
      end
  end.

(** DeletePod accepts a Pod definition. *)
Definition DeletePod (p : Provider W) (pod : v1.Pod) : Go W (option error) :=
  let taskID := getTaskIDForPod (v1.Namespace pod) (v1.Name pod) in
  '(task, err) ← call (batch.Delete (taskClient p) (JobID (batchConfig p)) taskID);
  match err with
  | Some err => mret (Some err)
  | None => mret None
  end.

(** UpdatePod accepts a Pod definition. *)
Definition UpdatePod (p : Provider W) (pod : v1.Pod) : Go W (option error) :=
  err ← DeletePod p pod;
  match err with
  | Some err => mret (Some err)
  | None =>
      err ← CreatePod p pod;
      match err with
      | Some err => mret (Some err)
      | None => mret None
      end
  end.

(** GetPod returns a pod by name. *)
Definition GetPod (p : Provider W) (namespace name : string)
  : Go W (option v1.Pod * option error) :=
  '(task, err) ← call (batch.Get (taskClient p) (JobID (batchConfig p))
                         (getTaskIDForPod namespace name));
  match err with
  | Some err =>
      response ← deref (batch.Response task);
      if bool_decide (http.StatusCode response = http.StatusNotFound)
      then mret (None, None)
      else mret (None, Some err)
  | None =>
      let '(pod, err) := getPodFromTask task in
      match err with
      | Some err => panic (PanicError err)
      | None =>
          let '(status, _) := convertTaskToPodStatus task in
          status ← deref status;
          pod ← deref pod;
          mret (Some (v1.setStatus pod status), None)
      end
  end.

(** GetPodStatus retrieves the status of a given pod by name. *)
Definition GetPodStatus (p : Provider W) (namespace name : string)
  : Go W (option v1.PodStatus * option error) :=
  '(pod, err) ← GetPod p namespace name;
  match err with
  | Some err => mret (None, Some err)
  | None =>
      match pod with
      | None => mret (None, None)
      | Some pod => mret (Some (v1.Status pod), None)
      end
  end.

(** GetContainerLogs returns the logs of a container running in a pod by
    name. *)
Definition GetContainerLogs (p : Provider W)
    (namespace podName containerName : string) (tail : Z)
  : Go W (string * option error) :=
  let logFileLocation := "wd/" +:+ containerName in
  '(reader, err) ← call (batch.GetFromTask (fileClient p) (JobID (batchConfig p))
                           (getTaskIDForPod namespace podName) logFileLocation);
  match err with
  | Some err => mret (EmptyString, Some err)
  | None =>
      value ← deref (batch.ReaderValue reader);
      let '(bytes, err) := ioutil_ReadAll value in
      match err with
      | Some err => mret (EmptyString, Some err)
      | None => mret (bytes, None)
      end
  end.

(** [for i, t := range tasks { ... pods[i] = pod }] of [GetPods]. *)
Fixpoint GetPods_loop (i : nat) (tasks : list batch.CloudTask)
    (pods : list (option v1.Pod)) : Go W (list (option v1.Pod)) :=
  match tasks with
  | [] => mret pods
  | t :: tasks =>
      let '(pod, err) := getPodFromTask t in
      match err with
      | Some err => panic (PanicError err)
      | None => GetPods_loop (S i) tasks (<[i := pod]> pods)
      end
  end.

(** GetPods retrieves a list of all pods scheduled to run. *)
Definition GetPods (p : Provider W) : Go W (list (option v1.Pod) * option error) :=
  '(tasksPtr, err) ← listTasks p;
  match err with
  | Some err => panic (PanicError err)
  | None =>
      match tasksPtr with
      | None => mret ([], None)
      | Some tasks =>
          let pods := replicate (length tasks) None in
          pods ← GetPods_loop 0 tasks pods;
          mret (pods, None)
      end
  end.

End provider.

(** ** An in-memory task store

    The remote service is outside the provider; this store follows the
    contract the provider depends on: adding a task whose identifier is
    taken is a conflict, getting or deleting an absent identifier is not
    found, listing is paginated, and a task's working directory holds its
    files.  It models the one configured job and records every call it
    receives. *)

Module memstore.

Inductive Call : Type :=
| CallAdd (taskID : string)
| CallDelete (taskID : string)
| CallGet (taskID : string)
| CallList
| CallGetFromTask (taskID path : string).

Record Store : Type :=
  { tasks : gmap string batch.CloudTask;
    files : gmap (string * string) string;
    pageSize : nat;
    calls : list Call }.

Definition logCall (c : Call) (s : Store) : Store :=
  {| tasks := tasks s; files := files s; pageSize := pageSize s;
     calls := calls s ++ [c] |}.

Definition setTasks (m : gmap string batch.CloudTask) (s : Store) : Store :=
  {| tasks := m; files := files s; pageSize := pageSize s; calls := calls s |}.

Definition errTaskExists : error := errorString "TaskExists".
Definition errTaskNotFound : error := errorString "TaskNotFound".
Definition errFileNotFound : error := errorString "FileNotFound".

Definition respond (code : Z) : autorest.Response :=
  Some {| http.StatusCode := code |}.

(** The task the service creates from an add request: it starts Active. *)
Definition newTask (t : batch.TaskAddParameter) : batch.CloudTask :=
  {| batch.Response := None;
     batch.ID := batch.AddID t;
     batch.DisplayName := batch.AddDisplayName t;
     batch.CommandLine := batch.AddCommandLine t;
     batch.State := batch.TaskStateActive;
     batch.ExecutionInfo := None;
     batch.EnvironmentSettings := batch.AddEnvironmentSettings t |}.

Definition withResponse (r : autorest.Response) (t : batch.CloudTask) : batch.CloudTask :=
  {| batch.Response := r;
     batch.ID := batch.ID t;
     batch.DisplayName := batch.DisplayName t;
     batch.CommandLine := batch.CommandLine t;
     batch.State := batch.State t;
     batch.ExecutionInfo := batch.ExecutionInfo t;
     batch.EnvironmentSettings := batch.EnvironmentSettings t |}.

(** What a failed request carries besides its status code. *)
Definition noTask (r : autorest.Response) : batch.CloudTask :=
  {| batch.Response := r;
     batch.ID := EmptyString;
     batch.DisplayName := EmptyString;
     batch.CommandLine := EmptyString;
     batch.State := batch.TaskStateActive;
     batch.ExecutionInfo := None;
     batch.EnvironmentSettings := [] |}.

Definition Add (jobID : string) (t : batch.TaskAddParameter) (s : Store)
  : Store * (autorest.Response * option error) :=
  let s := logCall (CallAdd (batch.AddID t)) s in
  match tasks s !! batch.AddID t with
  | Some _ => (s, (respond http.StatusConflict, Some errTaskExists))
  | None => (setTasks (<[batch.AddID t := newTask t]> (tasks s)) s, (respond 201, None))
  end.

Definition Delete (jobID taskID : string) (s : Store)
  : Store * (autorest.Response * option error) :=
  let s := logCall (CallDelete taskID) s in
  match tasks s !! taskID with
  | Some _ => (setTasks (delete taskID (tasks s)) s, (respond 200, None))
  | None => (s, (respond http.StatusNotFound, Some errTaskNotFound))
  end.

Definition Get (jobID taskID : string) (s : Store)
  : Store * (batch.CloudTask * option error) :=
  let s := logCall (CallGet taskID) s in
  match tasks s !! taskID with
  | Some t => (s, (withResponse (respond 200) t, None))
  | None => (s, (noTask (respond http.StatusNotFound), Some errTaskNotFound))
  end.

(** Cut a listing into pages of [S size] entries. *)
Fixpoint paginate {A} (fuel size : nat) (l : list A) : list (list A) :=
  match fuel, l with
  | _, [] => []
  | O, _ => [l]
  | S fuel, _ => take (S size) l :: paginate fuel size (drop (S size) l)
  end.

Definition List (jobID : string) (s : Store)
  : Store * (batch.CloudTaskListResultPage * option error) :=
  let s := logCall CallList s in
  let listing := (map_to_list (tasks s)).*2 in
  match paginate (length listing) (pageSize s) listing with
  | [] => (s, ({| batch.ctlr := []; batch.fn := [] |}, None))
  | page :: pages =>
      (s, ({| batch.ctlr := page; batch.fn := batch.PageOk <$> pages |}, None))
  end.

Definition GetFromTask (jobID taskID path : string) (s : Store)
  : Store * (batch.ReadCloserResult * option error) :=
  let s := logCall (CallGetFromTask taskID path) s in
  match files s !! (taskID, path) with
  | Some content =>
      (s, ({| batch.ReaderValue :=
                Some {| batch.data := content; batch.readErr := None |} |}, None))
  | None => (s, ({| batch.ReaderValue := None |}, Some errFileNotFound))
  end.

Definition taskClient : batch.TaskClient Store :=
  {| batch.Add := Add; batch.Delete := Delete; batch.Get := Get; batch.List := List |}.

Definition fileClient : batch.FileClient Store :=
  {| batch.GetFromTask := GetFromTask |}.

Definition provider (batchConfig : Config) : Provider Store :=
  NewBatchProvider batchConfig taskClient fileClient.

End memstore.

(** ** Test doubles for the collaborators, and sample pods and stores *)

Module demo.

Definition config : Config :=
  {| ResourceGroup := "rg"; PoolID := "pool"; JobID := "job";
     AccountName := "account"; AccountLocation := "westeurope" |}.

Definition mkPod (namespace name : string) (status : v1.PodStatus) : v1.Pod :=
  {| v1.Namespace := namespace;
     v1.Name := name;
     v1.UID := "uid-" +:+ name;
     v1.Spec :=
       {| v1.Containers :=
            [ {| v1.ContainerName := "main"; v1.Image := "busybox";
                 v1.Command := ["true"%string] |} ];
          v1.Volumes := [] |};
     v1.Status := status |}.

(** The pods as the kubelet submits them: no status yet. *)
Definition web : v1.Pod := mkPod "default" "web" v1.zeroStatus.
Definition db : v1.Pod := mkPod "default" "db" v1.zeroStatus.
Definition job1 : v1.Pod := mkPod "batch" "job1" v1.zeroStatus.

Definition encode (pod : v1.Pod) : string :=
  "{pod " +:+ v1.Namespace pod +:+ "/" +:+ v1.Name pod +:+ "}".

Definition emptyPod : v1.Pod :=
  {| v1.Namespace := EmptyString; v1.Name := EmptyString; v1.UID := EmptyString;
     v1.Spec := {| v1.Containers := []; v1.Volumes := [] |};
     v1.Status := v1.zeroStatus |}.

(** A codec that knows the three sample pods and rejects anything else. *)
Definition decode (payload : string) : v1.Pod * option error :=
  match List.find (λ pod, String.eqb (encode pod) payload) [web; db; job1] with
  | Some pod => (pod, None)
  | None => (emptyPod, Some (errorString "invalid character"))
  end.

Definition collaborators : Collaborators :=
  {| GetBashCommand c := ("docker run " +:+ pod2docker.PodName c, None);
     json_Marshal pod := (encode pod, None);
     json_Unmarshal := decode;
     getTaskIDForPod namespace name := namespace +:+ "-" +:+ name |}.

Definition provider : Provider memstore.Store := memstore.provider config.

(** A job without tasks, listing two tasks per page. *)
Definition emptyStore : memstore.Store :=
  {| memstore.tasks := ∅; memstore.files := ∅; memstore.pageSize := 1;
     memstore.calls := [] |}.

(** A task as the service holds it for [pod], in a given state. *)
Definition taskOf (pod : v1.Pod) (state : batch.TaskState)
    (info : option batch.TaskExecutionInformation) : batch.CloudTask :=
  {| batch.Response := None;
     batch.ID := @getTaskIDForPod collaborators (v1.Namespace pod) (v1.Name pod);
     batch.DisplayName := v1.UID pod;
     batch.CommandLine := "/bin/bash -c true";
     batch.State := state;
     batch.ExecutionInfo := info;
     batch.EnvironmentSettings :=
       [ {| batch.Name := podJsonKey; batch.Value := encode pod |} ] |}.

Definition exited (code : Z) : option batch.TaskExecutionInformation :=
  Some {| batch.StartTime := Some 100; batch.EndTime := Some 160;
          batch.ExitCode := Some code |}.

Definition started : option batch.TaskExecutionInformation :=
  Some {| batch.StartTime := Some 100; batch.EndTime := None;
          batch.ExitCode := None |}.

(** A task that this provider did not create: no embedded pod. *)
Definition foreignTask : batch.CloudTask :=
  {| batch.Response := None;
     batch.ID := "default-stray";
     batch.DisplayName := "stray";
     batch.CommandLine := "/bin/true";
     batch.State := batch.TaskStateRunning;
     batch.ExecutionInfo := started;
     batch.EnvironmentSettings :=
       [ {| batch.Name := "PATH"; batch.Value := "/usr/bin" |} ] |}.

(** The job once [web] runs. *)
Definition runningStore : memstore.Store :=
  {| memstore.tasks :=
       {[ "default-web"%string := taskOf web batch.TaskStateRunning started ]};
     memstore.files := {[ ("default-web", "wd/main")%string := "hello"%string ]};
     memstore.pageSize := 1;
     memstore.calls := [] |}.

(** The job holding only the foreign task. *)
Definition strayStore : memstore.Store :=
  {| memstore.tasks := {[ "default-stray"%string := foreignTask ]};
     memstore.files := ∅;
     memstore.pageSize := 1;
     memstore.calls := [] |}.

(** The sample tasks: [web] runs, [db] waits, [job1] has exited with 0. *)
Definition webTask : batch.CloudTask := taskOf web batch.TaskStateRunning started.
Definition dbTask : batch.CloudTask := taskOf db batch.TaskStateActive None.
Definition job1Task : batch.CloudTask := taskOf job1 batch.TaskStateCompleted (exited 0).

(** A task whose payload is not a pod this codec can read. *)
Definition corruptTask : batch.CloudTask :=
  {| batch.Response := None;
     batch.ID := "default-web";
     batch.DisplayName := "uid-web";
     batch.CommandLine := "/bin/bash -c true";
     batch.State := batch.TaskStateRunning;
     batch.ExecutionInfo := started;
     batch.EnvironmentSettings :=
       [ {| batch.Name := podJsonKey; batch.Value := "{pod" |} ] |}.

Definition errUnavailable : error := errorString "ServiceUnavailable".

(** A task client over a world without state: its listing answers with a
    fixed script of pages (or fails at once with [listErr]), and every
    other request goes unanswered. *)
Definition scripted (listErr : option error) (page : list batch.CloudTask)
    (more : list batch.PageFetch) : batch.TaskClient unit :=
  {| batch.Add _ _ w := (w, (None, Some errUnavailable));
     batch.Delete _ _ w := (w, (None, Some errUnavailable));
     batch.Get _ _ w := (w, (memstore.noTask None, Some errUnavailable));
     batch.List _ w := (w, ({| batch.ctlr := page; batch.fn := more |}, listErr)) |}.

Definition noFiles : batch.FileClient unit :=
  {| batch.GetFromTask _ _ _ w := (w, ({| batch.ReaderValue := None |}, Some errUnavailable)) |}.

End demo.

(** ** Vocabulary of the statements *)

(** The task's environment settings hold no entry named [podJsonKey]. *)
Definition lacksPodEntry (task : batch.CloudTask) : Prop :=
  Forall (λ s, batch.Name s ≠ podJsonKey) (batch.EnvironmentSettings task).

(** The task has the entry, and its payload does not deserialize. *)
Definition undeserializable `{Collaborators} (task : batch.CloudTask) : Prop :=
  ∃ s e,
    List.find (λ s, String.eqb (batch.Name s) podJsonKey) (batch.EnvironmentSettings task)
    = Some s
    ∧ (json_Unmarshal (batch.Value s)).2 = Some e.

(** The pod embedded in the task deserializes to [pod]. *)
Definition embeds `{Collaborators} (task : batch.CloudTask) (pod : v1.Pod) : Prop :=
  ∃ s,
    List.find (λ s, String.eqb (batch.Name s) podJsonKey) (batch.EnvironmentSettings task)
    = Some s
    ∧ json_Unmarshal (batch.Value s) = (pod, None).

(** A listing in pages, the first in hand: every page that another page
    follows holds at least one task (the iterator takes an empty page for
    the end of the listing). *)
Fixpoint wellPaged (page : list batch.CloudTask) (pages : list (list batch.CloudTask)) : Prop :=
  match pages with
  | [] => True
  | next :: pages => page ≠ [] ∧ wellPaged next pages
  end.

(** ** Collaborators that can fail, and more sample data *)

Module strict.

Definition errNoContainers : error := errorString "pod has no containers".
Definition errUnsupported : error := errorString "json: unsupported value".
Definition errShortRead : error := errorString "unexpected EOF".

(** A command generator that refuses a pod without containers, and an
    encoder that refuses a pod without a name. *)
Definition collaborators : Collaborators :=
  {| GetBashCommand c :=
       match pod2docker.Containers c with
       | [] => (EmptyString, Some errNoContainers)
       | _ => ("docker run " +:+ pod2docker.PodName c, None)
       end;
     json_Marshal pod :=
       if String.eqb (v1.Name pod) EmptyString
       then (EmptyString, Some errUnsupported)
       else (demo.encode pod, None);
     json_Unmarshal := demo.decode;
     getTaskIDForPod namespace name := namespace +:+ "-" +:+ name |}.

(** A pod that declares no container. *)
Definition bare : v1.Pod :=
  {| v1.Namespace := "default"; v1.Name := "bare"; v1.UID := "uid-bare";
     v1.Spec := {| v1.Containers := []; v1.Volumes := [] |};
     v1.Status := v1.zeroStatus |}.

(** A pod without a name. *)
Definition nameless : v1.Pod := demo.mkPod "default" EmptyString v1.zeroStatus.

(** A file client whose stream breaks after some bytes. *)
Definition brokenFiles : batch.FileClient unit :=
  {| batch.GetFromTask _ _ _ w :=
       (w, ({| batch.ReaderValue :=
                 Some {| batch.data := "hel"; batch.readErr := Some errShortRead |} |},
            None)) |}.

(** A task client whose requests fail before any response arrives. *)
Definition offline : batch.TaskClient unit :=
  {| batch.Add _ _ w := (w, (None, Some demo.errUnavailable));
     batch.Delete _ _ w := (w, (None, Some demo.errUnavailable));
     batch.Get _ _ w := (w, (memstore.noTask None, Some demo.errUnavailable));
     batch.List _ w := (w, ({| batch.ctlr := []; batch.fn := [] |}, Some demo.errUnavailable)) |}.

(** A task client that answers every request with status 500. *)
Definition failing : batch.TaskClient unit :=
  {| batch.Add _ _ w := (w, (memstore.respond 500, Some demo.errUnavailable));
     batch.Delete _ _ w := (w, (memstore.respond 500, Some demo.errUnavailable));
     batch.Get _ _ w :=
       (w, (memstore.noTask (memstore.respond 500), Some demo.errUnavailable));
     batch.List _ w := (w, ({| batch.ctlr := []; batch.fn := [] |}, Some demo.errUnavailable)) |}.

(** The job holding the three sample tasks, listed one task per page. *)
Definition fullStore : memstore.Store :=
  {| memstore.tasks :=
       {[ "default-web"%string := demo.webTask;
          "default-db"%string := demo.dbTask;
          "batch-job1"%string := demo.job1Task ]};
     memstore.files := ∅;
     memstore.pageSize := 0;
     memstore.calls := [] |}.

(** The job holding one task under the identifier of [bare]. *)
Definition bareStore : memstore.Store :=
  {| memstore.tasks := {[ "default-bare"%string := demo.foreignTask ]};
     memstore.files := ∅;
     memstore.pageSize := 1;
     memstore.calls := [] |}.

End strict.

(** * Properties *)

(** ** Running a method: the equations of the monad *)

Lemma run_call_bind {W A B} (c : W → W * A) (k : A → Go W B) (w : W) :
  (call c ≫= k) w = k (c w).2 (c w).1.
Proof. unfold mbind, Go_bind, call. destruct (c w); reflexivity. Qed.

Lemma run_bind_Return {W A B} (m : Go W A) (k : A → Go W B) (w w' : W) (a : A) :
  m w = (w', Return a) → (m ≫= k) w = k a w'.
Proof. intros Hm. unfold mbind, Go_bind. rewrite Hm. reflexivity. Qed.

Lemma run_bind_Panic {W A B} (m : Go W A) (k : A → Go W B) (w w' : W) (v : PanicValue) :
  m w = (w', Panic v) → (m ≫= k) w = (w', Panic v).
Proof. intros Hm. unfold mbind, Go_bind. rewrite Hm. reflexivity. Qed.

Lemma run_mret_bind {W A B} (a : A) (k : A → Go W B) (w : W) :
  (mret a ≫= k) w = k a w.
Proof. reflexivity. Qed.

(** Unfold one remote round trip whose answer is known. *)
Ltac round_trip Hcall := rewrite run_call_bind, Hcall; cbn [fst snd].

(** ** Deleting *)

Lemma DeletePod_run `{Collaborators} {W} (p : Provider W) (pod : v1.Pod) (w : W) :
  DeletePod p pod w =
    let r := batch.Delete (taskClient p) (JobID (batchConfig p))
               (getTaskIDForPod (v1.Namespace pod) (v1.Name pod)) w in
    (r.1, Return r.2.2).
Proof.
  unfold DeletePod. rewrite run_call_bind.
  destruct (batch.Delete _ _ _ w) as [w' [task [err|]]]; reflexivity.
Qed.

(** C5: DeletePod asks the task client to delete the task with the derived
    identifier and hands the client's error back unchanged; when the
    identifier is not in the job, the store's not-found error is what the
    caller gets (and the job is left as it was), and when it is, the task
    is gone afterwards and no error is returned. *)
Theorem DeletePod_returns_remote_error `{Collaborators} :
  (∀ W (p : Provider W) pod w w' response e,
     batch.Delete (taskClient p) (JobID (batchConfig p))
       (getTaskIDForPod (v1.Namespace pod) (v1.Name pod)) w = (w', (response, Some e)) →
     DeletePod p pod w = (w', Return (Some e)))
  ∧ (∀ cfg pod s,
       memstore.tasks s !! getTaskIDForPod (v1.Namespace pod) (v1.Name pod) = None →
       ∃ s', DeletePod (memstore.provider cfg) pod s
               = (s', Return (Some memstore.errTaskNotFound))
             ∧ memstore.tasks s' = memstore.tasks s)
  ∧ (∀ cfg pod s,
       is_Some (memstore.tasks s !! getTaskIDForPod (v1.Namespace pod) (v1.Name pod)) →
       ∃ s', DeletePod (memstore.provider cfg) pod s = (s', Return None)
             ∧ memstore.tasks s'
               = delete (getTaskIDForPod (v1.Namespace pod) (v1.Name pod)) (memstore.tasks s)).
Proof.
  split; [|split].
  - intros W p pod w w' response e Hdel.
    rewrite DeletePod_run, Hdel. reflexivity.
  - intros cfg pod s Habsent.
    rewrite DeletePod_run. simpl. unfold memstore.Delete. simpl.
    rewrite Habsent. simpl. eauto.
  - intros cfg pod s [t Hpresent].
    rewrite DeletePod_run. simpl. unfold memstore.Delete. simpl.
    rewrite Hpresent. simpl. eauto.
Qed.

Lemma DeletePod_returns_remote_error_witness :
  (memstore.tasks demo.emptyStore !! "default-web" = None
   ∧ ∃ s', @DeletePod demo.collaborators _ demo.provider demo.web demo.emptyStore
             = (s', Return (Some memstore.errTaskNotFound))
           ∧ memstore.tasks s' = memstore.tasks demo.emptyStore)
  ∧ (is_Some (memstore.tasks demo.runningStore !! "default-web")
     ∧ ∃ s', @DeletePod demo.collaborators _ demo.provider demo.web demo.runningStore
               = (s', Return None)
             ∧ memstore.tasks s' = delete "default-web" (memstore.tasks demo.runningStore))
  ∧ @DeletePod demo.collaborators _ demo.provider demo.web demo.emptyStore
      = (memstore.logCall (memstore.CallDelete "default-web") demo.emptyStore,
         Return (Some memstore.errTaskNotFound)).
Proof.
  pose proof (@DeletePod_returns_remote_error demo.collaborators) as (Hfail & Habsent & Hpresent).
  split; [|split].
  - split; [reflexivity|]. apply (Habsent demo.config demo.web demo.emptyStore). reflexivity.
  - assert (Hin : is_Some (memstore.tasks demo.runningStore !! "default-web")).
    { eexists. vm_compute. reflexivity. }
    split; [exact Hin|]. apply (Hpresent demo.config demo.web demo.runningStore). exact Hin.
  - apply (Hfail _ demo.provider demo.web demo.emptyStore _ (memstore.respond 404)).
    reflexivity.
Defined.

(** ** Container logs *)

(** C10: GetContainerLogs never looks at [tail]: any two tail values give
    the same outcome in the same world, and when the file client serves
    the file [wd/<containerName>] of the pod's task and the read succeeds,
    that outcome is the whole content of the file, as read. *)
Theorem GetContainerLogs_ignores_tail `{Collaborators} :
  (∀ W (p : Provider W) namespace podName containerName (t1 t2 : Z) w,
     GetContainerLogs p namespace podName containerName t1 w
     = GetContainerLogs p namespace podName containerName t2 w)
  ∧ (∀ W (p : Provider W) namespace podName containerName (tail : Z) w w' content,
       batch.GetFromTask (fileClient p) (JobID (batchConfig p))
         (getTaskIDForPod namespace podName) ("wd/" +:+ containerName) w
       = (w', ({| batch.ReaderValue :=
                    Some {| batch.data := content; batch.readErr := None |} |}, None)) →
       GetContainerLogs p namespace podName containerName tail w
       = (w', Return (content, None))).
Proof.
  split.
  - reflexivity.
  - intros W p namespace podName containerName tail w w' content Hfile.
    unfold GetContainerLogs. round_trip Hfile. reflexivity.
Qed.

Lemma GetContainerLogs_ignores_tail_witness :
  @GetContainerLogs demo.collaborators _ demo.provider "default" "web" "main" 1 demo.runningStore
  = @GetContainerLogs demo.collaborators _ demo.provider "default" "web" "main" 5000 demo.runningStore
  ∧ memstore.GetFromTask "job" "default-web" "wd/main" demo.runningStore
    = (memstore.logCall (memstore.CallGetFromTask "default-web" "wd/main") demo.runningStore,
       ({| batch.ReaderValue :=
             Some {| batch.data := "hello"; batch.readErr := None |} |}, None))
  ∧ @GetContainerLogs demo.collaborators _ demo.provider "default" "web" "main" 1 demo.runningStore
    = (memstore.logCall (memstore.CallGetFromTask "default-web" "wd/main") demo.runningStore,
       Return ("hello"%string, None)).
Proof.
  pose proof (@GetContainerLogs_ignores_tail demo.collaborators) as [Htail Hcontent].
  split; [apply Htail|].
  assert (Hfile : memstore.GetFromTask "job" "default-web" "wd/main" demo.runningStore
    = (memstore.logCall (memstore.CallGetFromTask "default-web" "wd/main") demo.runningStore,
       ({| batch.ReaderValue :=
             Some {| batch.data := "hello"; batch.readErr := None |} |}, None))).
  { vm_compute. reflexivity. }
  split; [exact Hfile|].
  apply (Hcontent _ demo.provider "default"%string "web"%string "main"%string 1). exact Hfile.
Defined.

(** ** Creating *)


(** C2: CreatePod does not hand the error of the add request to its
    caller.  Here [web] is already in the job, so the store answers the
    add request with its conflict error and keeps the old task; CreatePod
    nevertheless returns no error. *)
Theorem CreatePod_conflict_is_dropped :
  memstore.Add "job"
    {| batch.AddID := "default-web";
       batch.AddDisplayName := "uid-web";
       batch.AddCommandLine := "/bin/bash -c " +:+ dquote +:+ "docker run web" +:+ dquote;
       batch.AddUserIdentity :=
         Some {| batch.AutoUser :=
                   Some {| batch.Elevation := batch.Admin; batch.Scope := batch.Pool |} |};
       batch.AddEnvironmentSettings :=
         [ {| batch.Name := podJsonKey; batch.Value := demo.encode demo.web |} ] |}
    demo.runningStore
  = (memstore.logCall (memstore.CallAdd "default-web") demo.runningStore,
     (memstore.respond http.StatusConflict, Some memstore.errTaskExists))
  ∧ @CreatePod demo.collaborators _ demo.provider demo.web demo.runningStore
    = (memstore.logCall (memstore.CallAdd "default-web") demo.runningStore, Return None).
Proof. split; vm_compute; reflexivity. Qed.

(** ** Reconstructing the embedded pod *)

Lemma getPodFromTask_embeds `{Collaborators} (task : batch.CloudTask) (pod : v1.Pod) :
  embeds task pod ↔ getPodFromTask task = (Some pod, None).
Proof.
  unfold embeds, getPodFromTask. split.
  - intros (s & Hfind & Hjson). rewrite Hfind, Hjson. reflexivity.
  - destruct (List.find _ _) as [s|]; [|discriminate].
    destruct (json_Unmarshal _) as [pod' [e|]] eqn:Hjson; [discriminate|].
    intros [= ->]. eauto.
Qed.

Lemma find_lacksPodEntry (task : batch.CloudTask) :
  lacksPodEntry task →
  List.find (λ s, String.eqb (batch.Name s) podJsonKey) (batch.EnvironmentSettings task)
  = None.
Proof.
  unfold lacksPodEntry. induction 1 as [|s settings Hname _ IH]; simpl; [reflexivity|].
  destruct (String.eqb_spec (batch.Name s) podJsonKey); [contradiction|exact IH].
Qed.

(** A task without the entry, or with a payload that does not
    deserialize, yields an error and no pod. *)
Lemma getPodFromTask_fails `{Collaborators} (task : batch.CloudTask) :
  lacksPodEntry task ∨ undeserializable task →
  ∃ e, getPodFromTask task = (None, Some e).
Proof.
  unfold getPodFromTask. intros [Hlacks | (s & e & Hfind & Hjson)].
  - rewrite (find_lacksPodEntry _ Hlacks). eauto.
  - rewrite Hfind. destruct (json_Unmarshal _) as [pod err]. simpl in Hjson.
    subst err. eauto.
Qed.

(** The status translator always produces a status. *)
Lemma convertTaskToPodStatus_total `{Collaborators} (task : batch.CloudTask) :
  ∃ status, convertTaskToPodStatus task = (Some status, None).
Proof. unfold convertTaskToPodStatus. eauto. Qed.

(** ** Looking one pod up *)

Lemma GetPod_found `{Collaborators} {W} (p : Provider W) (namespace name : string)
    (w w' : W) (task : batch.CloudTask) (pod : v1.Pod) :
  batch.Get (taskClient p) (JobID (batchConfig p)) (getTaskIDForPod namespace name) w
  = (w', (task, None)) →
  getPodFromTask task = (Some pod, None) →
  ∃ status,
    convertTaskToPodStatus task = (Some status, None)
    ∧ GetPod p namespace name w = (w', Return (Some (v1.setStatus pod status), None)).
Proof.
  intros Hget Hpod.
  destruct (convertTaskToPodStatus_total task) as [status Hstatus].
  exists status. split; [exact Hstatus|].
  unfold GetPod. round_trip Hget. rewrite Hpod, Hstatus. reflexivity.
Qed.

Lemma GetPod_translation_error `{Collaborators} {W} (p : Provider W)
    (namespace name : string) (w w' : W) (task : batch.CloudTask)
    (pod : option v1.Pod) (e : error) :
  batch.Get (taskClient p) (JobID (batchConfig p)) (getTaskIDForPod namespace name) w
  = (w', (task, None)) →
  getPodFromTask task = (pod, Some e) →
  GetPod p namespace name w = (w', Panic (PanicError e)).
Proof.
  intros Hget Hpod. unfold GetPod. round_trip Hget. rewrite Hpod. reflexivity.
Qed.

(** C4: when the task client reports the derived identifier as not found
    (an error whose response carries status 404), GetPod returns no pod
    and no error; when the task is there and embeds a pod, GetPod returns
    that pod with its [Status] replaced by the translation of the task as
    just fetched.  In the store, an identifier that is not in the job is
    reported as not found. *)
Theorem GetPod_absent_or_reconstructed `{Collaborators} :
  (∀ W (p : Provider W) namespace name w w' task e response,
     batch.Get (taskClient p) (JobID (batchConfig p)) (getTaskIDForPod namespace name) w
     = (w', (task, Some e)) →
     batch.Response task = Some response →
     http.StatusCode response = http.StatusNotFound →
     GetPod p namespace name w = (w', Return (None, None)))
  ∧ (∀ W (p : Provider W) namespace name w w' task pod,
       batch.Get (taskClient p) (JobID (batchConfig p)) (getTaskIDForPod namespace name) w
       = (w', (task, None)) →
       embeds task pod →
       ∃ status,
         convertTaskToPodStatus task = (Some status, None)
         ∧ GetPod p namespace name w
           = (w', Return (Some {| v1.Namespace := v1.Namespace pod;
                                  v1.Name := v1.Name pod;
                                  v1.UID := v1.UID pod;
                                  v1.Spec := v1.Spec pod;
                                  v1.Status := status |}, None)))
  ∧ (∀ cfg namespace name s,
       memstore.tasks s !! getTaskIDForPod namespace name = None →
       GetPod (memstore.provider cfg) namespace name s
       = (memstore.logCall (memstore.CallGet (getTaskIDForPod namespace name)) s,
          Return (None, None))).
Proof.
  split; [|split].
  - intros W p namespace name w w' task e response Hget Hresp Hcode.
    unfold GetPod. round_trip Hget. rewrite Hresp. simpl.
    rewrite run_mret_bind, bool_decide_eq_true_2 by exact Hcode. reflexivity.
  - intros W p namespace name w w' task pod Hget Hpod.
    apply getPodFromTask_embeds in Hpod.
    destruct (GetPod_found p namespace name w w' task pod Hget Hpod) as (status & Hst & Hrun).
    exists status. split; [exact Hst | exact Hrun].
  - intros cfg namespace name s Habsent.
    unfold GetPod. rewrite run_call_bind. simpl. unfold memstore.Get. simpl.
    rewrite Habsent. reflexivity.
Qed.

(** ** Enumerating: the pagination loop *)

(** One turn of the loop. *)
Lemma listTasks_loop_step (res : batch.CloudTaskListResultPage)
    (currentTasks : list batch.CloudTask) :
  listTasks_loop res currentTasks =
    if batch.NotDone res then
      match batch.Next res with
      | (res', Some err) => ([], Some err)
      | (res', None) =>
          let pageTasks := batch.Values res' in
          listTasks_loop res'
            (if negb (bool_decide (pageTasks = [])) || negb (bool_decide (length pageTasks = 0%nat))
             then currentTasks ++ pageTasks else currentTasks)
      end
    else (currentTasks, None).
Proof.
  funelim (listTasks_loop res currentTasks).
  all: repeat match goal with
       | Heq : batch.NotDone _ = _ |- context [batch.NotDone _] => rewrite Heq
       | Heq : batch.Next _ = _ |- context [batch.Next _] => rewrite Heq
       end; reflexivity.
Qed.

Lemma NotDone_nonempty (page : list batch.CloudTask) (more : list batch.PageFetch) :
  page ≠ [] → batch.NotDone {| batch.ctlr := page; batch.fn := more |} = true.
Proof. destruct page; [contradiction | reflexivity]. Qed.

Lemma Values_page (page : list batch.CloudTask) (more : list batch.PageFetch) :
  batch.Values {| batch.ctlr := page; batch.fn := more |} = page.
Proof. destruct page; reflexivity. Qed.

(** The guard around [append] lets every page through: an empty page
    adds nothing either way. *)
Lemma append_guard (currentTasks pageTasks : list batch.CloudTask) :
  (if negb (bool_decide (pageTasks = [])) || negb (bool_decide (length pageTasks = 0%nat))
   then currentTasks ++ pageTasks else currentTasks)
  = currentTasks ++ pageTasks.
Proof. destruct pageTasks; simpl; [rewrite app_nil_r|]; reflexivity. Qed.

(** Without a failed request the loop collects every page, in order. *)
Lemma listTasks_loop_drains (pages : list (list batch.CloudTask)) :
  ∀ page currentTasks,
    wellPaged page pages →
    listTasks_loop {| batch.ctlr := page; batch.fn := batch.PageOk <$> pages |} currentTasks
    = (currentTasks ++ concat pages, None).
Proof.
  induction pages as [|next pages IH]; intros page currentTasks Hpaged.
  - rewrite listTasks_loop_step. simpl. rewrite app_nil_r.
    destruct page as [|t page]; [reflexivity|].
    change (batch.NotDone _) with true. cbv iota.
    unfold batch.Next. simpl. rewrite listTasks_loop_step. reflexivity.
  - destruct Hpaged as [Hpage Hpaged].
    rewrite listTasks_loop_step, (NotDone_nonempty _ _ Hpage).
    unfold batch.Next. simpl. rewrite Values_page, append_guard, IH by exact Hpaged.
    rewrite <- app_assoc. reflexivity.
Qed.


(** ** Enumerating: one pod per task *)

(** The range loop fills the slots in listing order with the embedded
    pods, exactly as deserialized. *)
Lemma GetPods_loop_embedded `{Collaborators} {W} (tasks : list batch.CloudTask)
    (found : list v1.Pod) :
  Forall2 embeds tasks found →
  ∀ (filled : list (option v1.Pod)) (w : W),
    GetPods_loop (length filled) tasks (filled ++ replicate (length tasks) None) w
    = (w, Return (filled ++ (Some <$> found))).
Proof.
  induction 1 as [|task pod tasks found Hpod _ IH]; intros filled w; simpl.
  - reflexivity.
  - apply getPodFromTask_embeds in Hpod. rewrite Hpod.
    rewrite insert_app_r_alt, Nat.sub_diag by lia. simpl.
    specialize (IH (filled ++ [Some pod]) w).
    rewrite length_app, Nat.add_1_r, <- !app_assoc in IH. exact IH.
Qed.

(** The range loop stops at the first task that does not reconstruct. *)
Lemma GetPods_loop_panics `{Collaborators} {W} (tasks : list batch.CloudTask)
    (task : batch.CloudTask) :
  task ∈ tasks →
  (∃ e, getPodFromTask task = (None, Some e)) →
  ∀ (i : nat) (pods : list (option v1.Pod)) (w : W),
    ∃ e, GetPods_loop i tasks pods w = (w, Panic (PanicError e)).
Proof.
  intros Hin [e Hfail].
  induction tasks as [|t tasks IH]; intros i pods w; [by apply elem_of_nil in Hin|].
  simpl. destruct (getPodFromTask t) as [pod [e'|]] eqn:Ht; [by eexists|].
  apply elem_of_cons in Hin as [->|Hin]; [congruence|]. apply IH, Hin.
Qed.

Lemma GetPods_embedded `{Collaborators} {W} (p : Provider W) (w w' : W)
    (tasks : list batch.CloudTask) (found : list v1.Pod) :
  listTasks p w = (w', Return (Some tasks, None)) →
  Forall2 embeds tasks found →
  GetPods p w = (w', Return (Some <$> found, None)).
Proof.
  intros Hlist Hfound. unfold GetPods.
  rewrite (run_bind_Return _ _ _ _ _ Hlist).
  erewrite run_bind_Return;
    [|exact (GetPods_loop_embedded tasks found Hfound [] w')].
  reflexivity.
Qed.

Lemma NewBatchProvider_listTasks_drains {W} (cfg : Config) (tc : batch.TaskClient W)
    (w w' : W) (page : list batch.CloudTask) (pages : list (list batch.CloudTask)) :
  batch.List tc (JobID cfg) w
  = (w', ({| batch.ctlr := page; batch.fn := batch.PageOk <$> pages |}, None)) →
  wellPaged page pages →
  NewBatchProvider_listTasks cfg tc w = (w', Return (Some (page ++ concat pages), None)).
Proof.
  intros Hlist Hpaged. unfold NewBatchProvider_listTasks. round_trip Hlist.
  rewrite Values_page, (listTasks_loop_drains _ _ _ Hpaged). reflexivity.
Qed.



Lemma demo_embeds :
  @embeds demo.collaborators demo.webTask demo.web
  ∧ @embeds demo.collaborators demo.dbTask demo.db
  ∧ @embeds demo.collaborators demo.job1Task demo.job1.
Proof. repeat split; eexists; split; reflexivity. Qed.



(** ** Tasks that do not reconstruct *)

(** C3, as stated, fails: the job holds one task without the embedded
    pod; GetPod and GetPods do not return an error for it, they panic. *)
Lemma translation_error_is_not_returned :
  lacksPodEntry demo.foreignTask
  ∧ (@GetPod demo.collaborators _ demo.provider "default" "stray" demo.strayStore).2
    = Panic (PanicError (errorString "task has no pod json stored in it"))
  ∧ (@GetPods demo.collaborators _ demo.provider demo.strayStore).2
    = Panic (PanicError (errorString "task has no pod json stored in it"))
  ∧ ¬ (∃ pod e, (@GetPod demo.collaborators _ demo.provider "default" "stray"
                   demo.strayStore).2 = Return (pod, Some e))
  ∧ ¬ (∃ pods e, (@GetPods demo.collaborators _ demo.provider demo.strayStore).2
                 = Return (pods, Some e)).
Proof.
  assert (Hget : (@GetPod demo.collaborators _ demo.provider "default" "stray"
                    demo.strayStore).2
                 = Panic (PanicError (errorString "task has no pod json stored in it")))
    by (vm_compute; reflexivity).
  assert (Hlist : (@GetPods demo.collaborators _ demo.provider demo.strayStore).2
                  = Panic (PanicError (errorString "task has no pod json stored in it")))
    by (vm_compute; reflexivity).
  split; [|split; [exact Hget|split; [exact Hlist|split]]].
  - repeat constructor. discriminate.
  - intros (pod & e & Hret). rewrite Hget in Hret. discriminate.
  - intros (pods & e & Hret). rewrite Hlist in Hret. discriminate.
Qed.

(** The translation error of a task that does not reconstruct: it is
    what [getPodFromTask] returns, and for an entry that does not
    deserialize it is the deserializer's own error. *)
Lemma getPodFromTask_error `{Collaborators} (task : batch.CloudTask) :
  lacksPodEntry task ∨ undeserializable task →
  ∃ e,
    getPodFromTask task = (None, Some e)
    ∧ ∀ s e',
        List.find (λ s, String.eqb (batch.Name s) podJsonKey) (batch.EnvironmentSettings task)
        = Some s →
        (json_Unmarshal (batch.Value s)).2 = Some e' →
        e = e'.
Proof.
  unfold getPodFromTask. intros [Hlacks | (s & e & Hfind & Hjson)].
  - rewrite (find_lacksPodEntry _ Hlacks). eexists. split; [reflexivity|]. discriminate.
  - rewrite Hfind. destruct (json_Unmarshal _) as [pod err] eqn:Hdecode.
    simpl in Hjson. subst err.
    exists e. split; [reflexivity|]. intros s' e' [= <-] Hjson'.
    rewrite Hdecode in Hjson'. simpl in Hjson'. congruence.
Qed.

(** A task either embeds a pod or has a translation error. *)
Lemma getPodFromTask_cases `{Collaborators} (task : batch.CloudTask) :
  (∃ pod, embeds task pod) ∨ (∃ e, getPodFromTask task = (None, Some e)).
Proof.
  destruct (getPodFromTask task) as [pod err] eqn:Hpod.
  unfold getPodFromTask in Hpod.
  destruct (List.find _ _) as [s|] eqn:Hfind; [|right; injection Hpod as <- <-; eauto].
  destruct (json_Unmarshal _) as [pod' [e|]] eqn:Hjson.
  - right. injection Hpod as <- <-. eauto.
  - left. exists pod'. exists s. split; assumption.
Qed.

(** The range loop panics with the translation error of the first task
    of the listing that does not reconstruct. *)
Lemma GetPods_loop_first_failure `{Collaborators} {W} (tasks : list batch.CloudTask)
    (task : batch.CloudTask) :
  task ∈ tasks →
  (∃ e, getPodFromTask task = (None, Some e)) →
  ∃ before first after e,
    tasks = before ++ first :: after
    ∧ Forall (λ t, ∃ pod, embeds t pod) before
    ∧ getPodFromTask first = (None, Some e)
    ∧ ∀ (i : nat) (pods : list (option v1.Pod)) (w : W),
        GetPods_loop i tasks pods w = (w, Panic (PanicError e)).
Proof.
  intros Hin [e Hfail].
  induction tasks as [|t tasks IH]; [by apply elem_of_nil in Hin|].
  destruct (getPodFromTask_cases t) as [[pod Hpod] | [e' Ht]].
  - apply elem_of_cons in Hin as [->|Hin].
    { apply getPodFromTask_embeds in Hpod. congruence. }
    destruct (IH Hin) as (before & first & after & e1 & -> & Hbefore & Hfirst & Hloop).
    exists (t :: before), first, after, e1. split; [reflexivity|].
    split; [constructor; eauto|]. split; [exact Hfirst|].
    intros i pods w. simpl. apply getPodFromTask_embeds in Hpod. rewrite Hpod.
    apply Hloop.
  - exists [], t, tasks, e'. split; [reflexivity|]. split; [constructor|].
    split; [exact Ht|]. intros i pods w. simpl. rewrite Ht. reflexivity.
Qed.

(** C3, amended: for a fetched task that lacks the [podJsonKey] entry or
    whose payload does not deserialize, GetPod panics, and the value of
    the panic is the translation error of that task (the deserializer's
    own error when the payload is at fault).  GetPods panics as soon as
    the listing holds such a task, with the translation error of the
    first task of the listing that does not reconstruct.  Neither
    returns a pod, zero-valued or not, nor an error value. *)
Theorem translation_failure_panics `{Collaborators} :
  (∀ W (p : Provider W) namespace name w w' task,
     batch.Get (taskClient p) (JobID (batchConfig p)) (getTaskIDForPod namespace name) w
     = (w', (task, None)) →
     lacksPodEntry task ∨ undeserializable task →
     ∃ e,
       getPodFromTask task = (None, Some e)
       ∧ (∀ s e',
            List.find (λ s, String.eqb (batch.Name s) podJsonKey)
              (batch.EnvironmentSettings task) = Some s →
            (json_Unmarshal (batch.Value s)).2 = Some e' →
            e = e')
       ∧ GetPod p namespace name w = (w', Panic (PanicError e)))
  ∧ (∀ W (p : Provider W) w w' tasks task,
       listTasks p w = (w', Return (Some tasks, None)) →
       task ∈ tasks →
       lacksPodEntry task ∨ undeserializable task →
       ∃ before first after e,
         tasks = before ++ first :: after
         ∧ Forall (λ t, ∃ pod, embeds t pod) before
         ∧ getPodFromTask first = (None, Some e)
         ∧ GetPods p w = (w', Panic (PanicError e))).
Proof.
  split.
  - intros W p namespace name w w' task Hget Hbad.
    destruct (getPodFromTask_error task Hbad) as (e & Hfail & Hpayload).
    exists e. split; [exact Hfail|]. split; [exact Hpayload|].
    eapply GetPod_translation_error; eassumption.
  - intros W p w w' tasks task Hlist Hin Hbad.
    pose proof (getPodFromTask_fails task Hbad) as Hfail.
    destruct (GetPods_loop_first_failure (W := W) tasks task Hin Hfail)
      as (before & first & after & e & Htasks & Hbefore & Hfirst & Hloop).
    exists before, first, after, e. repeat (split; [assumption|]).
    unfold GetPods. rewrite (run_bind_Return _ _ _ _ _ Hlist).
    rewrite (run_bind_Panic _ _ _ _ _
               (Hloop 0%nat (replicate (length tasks) None) w')).
    reflexivity.
Qed.

Lemma translation_failure_panics_witness :
  (∃ e,
     @getPodFromTask demo.collaborators
       (memstore.withResponse (memstore.respond 200) demo.foreignTask)
     = (None, Some e)
     ∧ (∀ s e',
          List.find (λ s, String.eqb (batch.Name s) podJsonKey)
            (batch.EnvironmentSettings
               (memstore.withResponse (memstore.respond 200) demo.foreignTask))
          = Some s →
          (@json_Unmarshal demo.collaborators (batch.Value s)).2 = Some e' →
          e = e')
     ∧ @GetPod demo.collaborators _ demo.provider "default" "stray" demo.strayStore
       = (memstore.logCall (memstore.CallGet "default-stray") demo.strayStore,
          Panic (PanicError e)))
  ∧ (∃ before first after e,
       [demo.webTask; demo.corruptTask; demo.foreignTask] = before ++ first :: after
       ∧ Forall (λ t, ∃ pod, @embeds demo.collaborators t pod) before
       ∧ @getPodFromTask demo.collaborators first = (None, Some e)
       ∧ @GetPods demo.collaborators _
           (NewBatchProvider demo.config
              (demo.scripted None [demo.webTask]
                 [batch.PageOk [demo.corruptTask]; batch.PageOk [demo.foreignTask]])
              demo.noFiles) ()
         = ((), Panic (PanicError e))).
Proof.
  pose proof (@translation_failure_panics demo.collaborators) as [Hone Hall].
  split.
  - apply (Hone _ demo.provider "default"%string "stray"%string demo.strayStore _
             (memstore.withResponse (memstore.respond 200) demo.foreignTask)).
    + vm_compute. reflexivity.
    + left. repeat constructor. discriminate.
  - apply (Hall unit
             (NewBatchProvider demo.config
                (demo.scripted None [demo.webTask]
                   [batch.PageOk [demo.corruptTask]; batch.PageOk [demo.foreignTask]])
                demo.noFiles)
             () () [demo.webTask; demo.corruptTask; demo.foreignTask] demo.foreignTask).
    + reflexivity.
    + set_solver.
    + left. repeat constructor. discriminate.
Defined.

(** ** What enumeration does with the status *)

(** C9: enumeration does not recompute the status.  Here [web] was
    submitted without a status and its task now runs: GetPod reports the
    pod as Running, while GetPods returns the very pod that was embedded
    at submission, its status still the zero value. *)
Theorem GetPods_leaves_embedded_status :
  (∃ status,
     (@GetPod demo.collaborators _ demo.provider "default" "web" demo.runningStore).2
     = Return (Some (v1.setStatus demo.web status), None)
     ∧ v1.Phase status = v1.PodRunning)
  ∧ (@GetPods demo.collaborators _ demo.provider demo.runningStore).2
    = Return ([Some demo.web], None)
  ∧ v1.Status demo.web = v1.zeroStatus.
Proof.
  split; [|split].
  - eexists. split; [vm_compute; reflexivity|reflexivity].
  - vm_compute. reflexivity.
  - reflexivity.
Qed.

Lemma GetPod_absent_or_reconstructed_witness :
  @GetPod demo.collaborators _ demo.provider "default" "web" demo.emptyStore
  = (memstore.logCall (memstore.CallGet "default-web") demo.emptyStore, Return (None, None))
  ∧ (∃ status,
       @convertTaskToPodStatus demo.collaborators
         (memstore.withResponse (memstore.respond 200) demo.webTask)
       = (Some status, None)
       ∧ @GetPod demo.collaborators _ demo.provider "default" "web" demo.runningStore
         = (memstore.logCall (memstore.CallGet "default-web") demo.runningStore,
            Return (Some {| v1.Namespace := "default";
                            v1.Name := "web";
                            v1.UID := "uid-web";
                            v1.Spec := v1.Spec demo.web;
                            v1.Status := status |}, None)))
  ∧ @GetPod demo.collaborators _ demo.provider "default" "db" demo.runningStore
    = (memstore.logCall (memstore.CallGet "default-db") demo.runningStore, Return (None, None)).
Proof.
  pose proof (@GetPod_absent_or_reconstructed demo.collaborators)
    as (Hnotfound & Hfound & Habsent).
  split; [|split].
  - apply (Hnotfound _ demo.provider "default"%string "web"%string demo.emptyStore _
             (memstore.noTask (memstore.respond 404)) memstore.errTaskNotFound
             {| http.StatusCode := 404 |});
      reflexivity.
  - apply (Hfound _ demo.provider "default"%string "web"%string demo.runningStore _
             (memstore.withResponse (memstore.respond 200) demo.webTask) demo.web).
    + vm_compute. reflexivity.
    + eexists. split; reflexivity.
  - apply (Habsent demo.config "default"%string "db"%string demo.runningStore).
    vm_compute. reflexivity.
Defined.

(** ** The status translator *)

(** C1: the translator gives every task a status, and its phase follows
    the table: Active and Preparing are Pending, Running is Running,
    Completed with exit code 0 is Succeeded, Completed with any other exit
    code is Failed.  Every state of the enumeration is covered: the phase
    is always one of these four. *)
Theorem convertTaskToPodStatus_phase_table `{Collaborators} (task : batch.CloudTask) :
  ∃ status,
    convertTaskToPodStatus task = (Some status, None)
    ∧ (batch.State task = batch.TaskStateActive → v1.Phase status = v1.PodPending)
    ∧ (batch.State task = batch.TaskStatePreparing → v1.Phase status = v1.PodPending)
    ∧ (batch.State task = batch.TaskStateRunning → v1.Phase status = v1.PodRunning)
    ∧ (batch.State task = batch.TaskStateCompleted →
       taskExitCode task = Some 0 → v1.Phase status = v1.PodSucceeded)
    ∧ (∀ code, batch.State task = batch.TaskStateCompleted →
       taskExitCode task = Some code → code ≠ 0 → v1.Phase status = v1.PodFailed)
    ∧ v1.Phase status ∈ [v1.PodPending; v1.PodRunning; v1.PodSucceeded; v1.PodFailed].
Proof.
  eexists. split; [reflexivity|]. simpl.
  repeat split.
  - intros ->. reflexivity.
  - intros ->. reflexivity.
  - intros ->. reflexivity.
  - intros -> ->. reflexivity.
  - intros code -> -> Hcode. simpl. rewrite bool_decide_eq_false_2 by exact Hcode.
    reflexivity.
  - destruct (batch.State task); simpl; [set_solver| |set_solver|set_solver].
    destruct (taskExitCode task) as [code|]; [case_bool_decide|]; set_solver.
Qed.

Lemma convertTaskToPodStatus_phase_table_witness :
  (v1.Phase <$> (@convertTaskToPodStatus demo.collaborators
                   (demo.taskOf demo.web batch.TaskStateActive None)).1
   = Some v1.PodPending)
  ∧ (v1.Phase <$> (@convertTaskToPodStatus demo.collaborators
                     (demo.taskOf demo.web batch.TaskStatePreparing None)).1
     = Some v1.PodPending)
  ∧ (v1.Phase <$> (@convertTaskToPodStatus demo.collaborators demo.webTask).1
     = Some v1.PodRunning)
  ∧ (v1.Phase <$> (@convertTaskToPodStatus demo.collaborators demo.job1Task).1
     = Some v1.PodSucceeded)
  ∧ Forall (λ code,
      v1.Phase <$> (@convertTaskToPodStatus demo.collaborators
                      (demo.taskOf demo.web batch.TaskStateCompleted (demo.exited code))).1
      = Some v1.PodFailed) [1; -1; 255].
Proof.
  assert (Hphase : ∀ task phase,
    (∀ status, @convertTaskToPodStatus demo.collaborators task = (Some status, None) →
               v1.Phase status = phase) →
    v1.Phase <$> (@convertTaskToPodStatus demo.collaborators task).1 = Some phase).
  { intros task phase Hstatus.
    destruct (@convertTaskToPodStatus_total demo.collaborators task) as [status Hs].
    rewrite Hs. simpl. f_equal. apply Hstatus, Hs. }
  split; [|split; [|split; [|split]]].
  5: constructor; [|constructor; [|constructor; [|constructor]]].
  all: apply Hphase; intros status Hstatus;
    match goal with
    | Hs : convertTaskToPodStatus ?task = _ |- _ =>
        destruct (@convertTaskToPodStatus_phase_table demo.collaborators task)
          as (status' & Hstatus' & Hactive & Hpreparing & Hrunning & Hzero & Hnonzero & _);
        rewrite Hs in Hstatus'; injection Hstatus' as <-
    end.
  - apply Hactive. reflexivity.
  - apply Hpreparing. reflexivity.
  - apply Hrunning. reflexivity.
  - apply Hzero; reflexivity.
  - apply (Hnonzero 1); [reflexivity|reflexivity|lia].
  - apply (Hnonzero (-1)); [reflexivity|reflexivity|lia].
  - apply (Hnonzero 255); [reflexivity|reflexivity|lia].
Defined.

(** ** Updating *)

Lemma memstore_GetPod_absent `{Collaborators} (cfg : Config) (namespace name : string)
    (s : memstore.Store) :
  memstore.tasks s !! getTaskIDForPod namespace name = None →
  GetPod (memstore.provider cfg) namespace name s
  = (memstore.logCall (memstore.CallGet (getTaskIDForPod namespace name)) s,
     Return (None, None)).
Proof.
  intros Habsent. unfold GetPod. rewrite run_call_bind. simpl.
  unfold memstore.Get. simpl. rewrite Habsent. reflexivity.
Qed.

(** What DeletePod leaves in the store, by its result. *)
Lemma memstore_DeletePod_inv `{Collaborators} (cfg : Config) (pod : v1.Pod)
    (s s1 : memstore.Store) (err : option error) :
  DeletePod (memstore.provider cfg) pod s = (s1, Return err) →
  let taskID := getTaskIDForPod (v1.Namespace pod) (v1.Name pod) in
  memstore.calls s1 = memstore.calls s ++ [memstore.CallDelete taskID]
  ∧ memstore.tasks s1 !! taskID = None
  ∧ match err with
    | Some e => e = memstore.errTaskNotFound ∧ memstore.tasks s1 = memstore.tasks s
    | None => memstore.tasks s1 = delete taskID (memstore.tasks s)
    end.
Proof.
  rewrite DeletePod_run. simpl. unfold memstore.Delete. simpl.
  destruct (memstore.tasks s !! _) as [t|] eqn:Hlookup; simpl; intros [= <- <-]; simpl.
  - split; [reflexivity|]. split; [apply lookup_delete_eq|reflexivity].
  - split; [reflexivity|]. split; [exact Hlookup|]. split; reflexivity.
Qed.

(** C6: UpdatePod runs DeletePod and then, from the world DeletePod
    left, CreatePod.  When the delete step returns an error UpdatePod
    returns it from that same world: in the store no add request was
    made, the identifier holds no task, and GetPod reports absence.  After
    a delete step that succeeded, and before the create step, the
    identifier holds no task either, and GetPod reports absence. *)
Theorem UpdatePod_delete_then_create `{Collaborators} :
  (∀ W (p : Provider W) pod w w1 e,
     DeletePod p pod w = (w1, Return (Some e)) →
     UpdatePod p pod w = (w1, Return (Some e)))
  ∧ (∀ W (p : Provider W) pod w w1,
       DeletePod p pod w = (w1, Return None) →
       UpdatePod p pod w = CreatePod p pod w1)
  ∧ (∀ cfg pod s s1 e,
       DeletePod (memstore.provider cfg) pod s = (s1, Return (Some e)) →
       ∃ s2,
         UpdatePod (memstore.provider cfg) pod s = (s1, Return (Some e))
         ∧ memstore.calls s1
           = memstore.calls s
             ++ [memstore.CallDelete (getTaskIDForPod (v1.Namespace pod) (v1.Name pod))]
         ∧ memstore.tasks s1 !! getTaskIDForPod (v1.Namespace pod) (v1.Name pod) = None
         ∧ GetPod (memstore.provider cfg) (v1.Namespace pod) (v1.Name pod) s1
           = (s2, Return (None, None)))
  ∧ (∀ cfg pod s s1,
       DeletePod (memstore.provider cfg) pod s = (s1, Return None) →
       ∃ s2,
         memstore.tasks s1 !! getTaskIDForPod (v1.Namespace pod) (v1.Name pod) = None
         ∧ GetPod (memstore.provider cfg) (v1.Namespace pod) (v1.Name pod) s1
           = (s2, Return (None, None))).
Proof.
  split; [|split; [|split]].
  - intros W p pod w w1 e Hdelete. unfold UpdatePod.
    rewrite (run_bind_Return _ _ _ _ _ Hdelete). reflexivity.
  - intros W p pod w w1 Hdelete. unfold UpdatePod.
    rewrite (run_bind_Return _ _ _ _ _ Hdelete).
    unfold mbind, Go_bind.
    destruct (CreatePod p pod w1) as [w2 [[e|]|v]]; reflexivity.
  - intros cfg pod s s1 e Hdelete.
    destruct (memstore_DeletePod_inv cfg pod s s1 (Some e) Hdelete)
      as (Hcalls & Hgone & _).
    eexists. split; [|split; [exact Hcalls|split; [exact Hgone|]]].
    + unfold UpdatePod. rewrite (run_bind_Return _ _ _ _ _ Hdelete). reflexivity.
    + apply memstore_GetPod_absent, Hgone.
  - intros cfg pod s s1 Hdelete.
    destruct (memstore_DeletePod_inv cfg pod s s1 None Hdelete) as (_ & Hgone & _).
    eexists. split; [exact Hgone|]. apply memstore_GetPod_absent, Hgone.
Qed.

Lemma UpdatePod_delete_then_create_witness :
  @UpdatePod demo.collaborators _ demo.provider demo.db demo.runningStore
  = (memstore.logCall (memstore.CallDelete "default-db") demo.runningStore,
     Return (Some memstore.errTaskNotFound))
  ∧ @UpdatePod demo.collaborators _ demo.provider demo.web demo.runningStore
    = @CreatePod demo.collaborators _ demo.provider demo.web
        (memstore.setTasks ∅ (memstore.logCall (memstore.CallDelete "default-web")
                                demo.runningStore))
  ∧ (∃ s2,
       @UpdatePod demo.collaborators _ demo.provider demo.db demo.runningStore
       = (memstore.logCall (memstore.CallDelete "default-db") demo.runningStore,
          Return (Some memstore.errTaskNotFound))
       ∧ memstore.calls (memstore.logCall (memstore.CallDelete "default-db") demo.runningStore)
         = memstore.calls demo.runningStore ++ [memstore.CallDelete "default-db"]
       ∧ memstore.tasks (memstore.logCall (memstore.CallDelete "default-db") demo.runningStore)
           !! "default-db" = None
       ∧ @GetPod demo.collaborators _ demo.provider "default" "db"
           (memstore.logCall (memstore.CallDelete "default-db") demo.runningStore)
         = (s2, Return (None, None)))
  ∧ (∃ s2,
       memstore.tasks
         (memstore.setTasks ∅ (memstore.logCall (memstore.CallDelete "default-web")
                                 demo.runningStore)) !! "default-web" = None
       ∧ @GetPod demo.collaborators _ demo.provider "default" "web"
           (memstore.setTasks ∅ (memstore.logCall (memstore.CallDelete "default-web")
                                   demo.runningStore))
         = (s2, Return (None, None))).
Proof.
  pose proof (@UpdatePod_delete_then_create demo.collaborators)
    as (Hfailed & Hthen & Hnone & Hgap).
  assert (Hdb : @DeletePod demo.collaborators _ demo.provider demo.db demo.runningStore
                = (memstore.logCall (memstore.CallDelete "default-db") demo.runningStore,
                   Return (Some memstore.errTaskNotFound)))
    by (vm_compute; reflexivity).
  assert (Hweb : @DeletePod demo.collaborators _ demo.provider demo.web demo.runningStore
                 = (memstore.setTasks ∅
                      (memstore.logCall (memstore.CallDelete "default-web") demo.runningStore),
                    Return None))
    by (vm_compute; reflexivity).
  split; [|split; [|split]].
  - apply (Hfailed _ demo.provider demo.db demo.runningStore _ _ Hdb).
  - apply (Hthen _ demo.provider demo.web demo.runningStore _ Hweb).
  - apply (Hnone demo.config demo.db demo.runningStore _ _ Hdb).
  - apply (Hgap demo.config demo.web demo.runningStore _ Hweb).
Defined.

(** * Further properties of the provider *)

(** ** Creating: where errors go *)

(** CreatePod returns an error exactly when the command generator fails,
    and then it returns the generator's error without any request to the
    service. *)
Theorem CreatePod_error_is_command_error `{Collaborators} {W} (p : Provider W)
    (pod : v1.Pod) (w w' : W) (e : error) :
  CreatePod p pod w = (w', Return (Some e))
  ↔ (GetBashCommand {| pod2docker.Containers := v1.Containers (v1.Spec pod);
                       pod2docker.PodName := v1.Name pod;
                       pod2docker.Volumes := v1.Volumes (v1.Spec pod) |}).2 = Some e
    ∧ w' = w.
Proof.
  unfold CreatePod.
  destruct (GetBashCommand _) as [podCommand [err|]]; simpl.
  - split; [intros [= <- <-]; done | intros [[= <-] ->]; done].
  - destruct (json_Marshal pod) as [bytes [err|]].
    + split; [discriminate | intros [? _]; discriminate].
    + rewrite run_call_bind. split; [discriminate | intros [? _]; discriminate].
Qed.

Lemma CreatePod_error_is_command_error_witness :
  @CreatePod strict.collaborators _ demo.provider strict.bare demo.emptyStore
  = (demo.emptyStore, Return (Some strict.errNoContainers)).
Proof.
  apply (@CreatePod_error_is_command_error strict.collaborators).
  split; reflexivity.
Defined.

(** When the pod does not serialize, CreatePod panics with the encoder's
    error, again without any request to the service. *)
Theorem CreatePod_marshal_error_panics `{Collaborators} {W} (p : Provider W)
    (pod : v1.Pod) (w : W) (podCommand bytes : string) (e : error) :
  GetBashCommand {| pod2docker.Containers := v1.Containers (v1.Spec pod);
                    pod2docker.PodName := v1.Name pod;
                    pod2docker.Volumes := v1.Volumes (v1.Spec pod) |}
  = (podCommand, None) →
  json_Marshal pod = (bytes, Some e) →
  CreatePod p pod w = (w, Panic (PanicError e)).
Proof. intros Hcmd Hjson. unfold CreatePod. rewrite Hcmd, Hjson. reflexivity. Qed.

Lemma CreatePod_marshal_error_panics_witness :
  @CreatePod strict.collaborators _ demo.provider strict.nameless demo.emptyStore
  = (demo.emptyStore, Panic (PanicError strict.errUnsupported)).
Proof.
  apply (@CreatePod_marshal_error_panics strict.collaborators _ demo.provider
           strict.nameless demo.emptyStore "docker run " EmptyString);
    reflexivity.
Defined.

(** ** Creating, deleting and updating against the store *)











(** Deleting is not idempotent: whatever the first DeletePod did, a
    second one for the same pod finds the identifier gone and returns
    the store's not-found error. *)
Theorem DeletePod_twice_is_not_found `{Collaborators} (cfg : Config) (pod : v1.Pod)
    (s s1 : memstore.Store) (err : option error) :
  DeletePod (memstore.provider cfg) pod s = (s1, Return err) →
  ∃ s2,
    DeletePod (memstore.provider cfg) pod s1 = (s2, Return (Some memstore.errTaskNotFound))
    ∧ memstore.tasks s2 = memstore.tasks s1.
Proof.
  intros Hfirst.
  destruct (memstore_DeletePod_inv cfg pod s s1 err Hfirst) as (_ & Hgone & _).
  rewrite DeletePod_run. simpl. unfold memstore.Delete. simpl.
  rewrite Hgone. simpl. eauto.
Qed.

Lemma DeletePod_twice_is_not_found_witness :
  ∃ s2,
    @DeletePod demo.collaborators _ demo.provider demo.web
      (memstore.setTasks ∅
         (memstore.logCall (memstore.CallDelete "default-web") demo.runningStore))
    = (s2, Return (Some memstore.errTaskNotFound))
    ∧ memstore.tasks s2
      = memstore.tasks
          (memstore.setTasks ∅
             (memstore.logCall (memstore.CallDelete "default-web") demo.runningStore)).
Proof.
  apply (@DeletePod_twice_is_not_found demo.collaborators demo.config demo.web
           demo.runningStore
           (memstore.setTasks ∅
              (memstore.logCall (memstore.CallDelete "default-web") demo.runningStore))
           None).
  vm_compute. reflexivity.
Defined.

(** ** Listing: where the loop stops, and what it hands back *)

Lemma listTasks_loop_first_empty (front : list (list batch.CloudTask))
    (back : list batch.PageFetch) :
  ∀ page currentTasks,
    page ≠ [] →
    Forall (λ pg, pg ≠ []) front →
    listTasks_loop
      {| batch.ctlr := page;
         batch.fn := (batch.PageOk <$> front) ++ batch.PageOk [] :: back |}
      currentTasks
    = (currentTasks ++ concat front, None).
Proof.
  induction front as [|next front IH]; intros page currentTasks Hpage Hfront.
  - rewrite listTasks_loop_step, (NotDone_nonempty _ _ Hpage).
    unfold batch.Next. simpl. rewrite listTasks_loop_step. simpl.
    rewrite app_nil_r. reflexivity.
  - apply Forall_cons in Hfront as [Hnext Hfront].
    rewrite listTasks_loop_step, (NotDone_nonempty _ _ Hpage).
    unfold batch.Next. simpl. rewrite Values_page, append_guard, IH by assumption.
    rewrite <- app_assoc. reflexivity.
Qed.

(** The loop takes an empty page for the end of the listing: it returns
    the tasks of the pages before it, without an error, and never asks
    for what the service holds after it, be it more tasks or a failure.
    An empty first page gives an empty listing in the same way. *)
Theorem listTasks_stops_at_empty_page {W} (cfg : Config) (tc : batch.TaskClient W)
    (w w' : W) :
  (∀ page front back,
     batch.List tc (JobID cfg) w
     = (w', ({| batch.ctlr := page;
                batch.fn := (batch.PageOk <$> front) ++ batch.PageOk [] :: back |}, None)) →
     page ≠ [] →
     Forall (λ pg, pg ≠ []) front →
     NewBatchProvider_listTasks cfg tc w = (w', Return (Some (page ++ concat front), None)))
  ∧ (∀ back,
       batch.List tc (JobID cfg) w = (w', ({| batch.ctlr := []; batch.fn := back |}, None)) →
       NewBatchProvider_listTasks cfg tc w = (w', Return (Some [], None))).
Proof.
  split.
  - intros page front back Hlist Hpage Hfront.
    unfold NewBatchProvider_listTasks. round_trip Hlist.
    rewrite Values_page, (listTasks_loop_first_empty _ _ _ _ Hpage Hfront). reflexivity.
  - intros back Hlist. unfold NewBatchProvider_listTasks. round_trip Hlist.
    rewrite listTasks_loop_step. reflexivity.
Qed.

Lemma listTasks_stops_at_empty_page_witness :
  NewBatchProvider_listTasks demo.config
    (demo.scripted None [demo.webTask]
       [batch.PageOk [demo.dbTask]; batch.PageOk []; batch.PageOk [demo.job1Task]]) ()
  = ((), Return (Some [demo.webTask; demo.dbTask], None))
  ∧ NewBatchProvider_listTasks demo.config
      (demo.scripted None [] [batch.PageErr demo.errUnavailable]) ()
    = ((), Return (Some [], None)).
Proof.
  split.
  - apply (proj1 (listTasks_stops_at_empty_page demo.config
                    (demo.scripted None [demo.webTask]
                       [batch.PageOk [demo.dbTask]; batch.PageOk [];
                        batch.PageOk [demo.job1Task]]) () ())
             [demo.webTask] [[demo.dbTask]] [batch.PageOk [demo.job1Task]]).
    + reflexivity.
    + discriminate.
    + repeat constructor. discriminate.
  - apply (proj2 (listTasks_stops_at_empty_page demo.config
                    (demo.scripted None [] [batch.PageErr demo.errUnavailable]) () ())
             [batch.PageErr demo.errUnavailable]).
    reflexivity.
Defined.

Lemma listTasks_loop_error (res : batch.CloudTaskListResultPage)
    (currentTasks tasks : list batch.CloudTask) (e : error) :
  listTasks_loop res currentTasks = (tasks, Some e) → tasks = [].
Proof.
  funelim (listTasks_loop res currentTasks); intros Hloop.
  - discriminate.
  - by injection Hloop as <- _.
  - eauto.
Qed.


(** ** Enumerating: what a returned slice is *)

Lemma GetPods_loop_world `{Collaborators} {W} (tasks : list batch.CloudTask) :
  ∀ (i : nat) (pods : list (option v1.Pod)) (w : W),
    (GetPods_loop i tasks pods w).1 = w.
Proof.
  induction tasks as [|t tasks IH]; intros i pods w; simpl; [reflexivity|].
  destruct (getPodFromTask t) as [pod [e|]]; [reflexivity|apply IH].
Qed.

Lemma GetPods_loop_inv `{Collaborators} {W} (tasks : list batch.CloudTask) :
  ∀ (filled pods : list (option v1.Pod)) (w w' : W),
    GetPods_loop (length filled) tasks (filled ++ replicate (length tasks) None) w
    = (w', Return pods) →
    ∃ found,
      pods = filled ++ found
      ∧ Forall2 (λ t pod, getPodFromTask t = (pod, None)) tasks found.
Proof.
  induction tasks as [|t tasks IH]; intros filled pods w w'; simpl.
  - intros [= _ <-]. exists []. split; [reflexivity|constructor].
  - destruct (getPodFromTask t) as [pod [e|]] eqn:Ht; [discriminate|].
    rewrite insert_app_r_alt, Nat.sub_diag by lia. simpl.
    replace (filled ++ pod :: replicate (length tasks) None)
      with ((filled ++ [pod]) ++ replicate (length tasks) None)
      by (rewrite <- app_assoc; reflexivity).
    replace (S (length filled)) with (length (filled ++ [pod]))
      by (rewrite length_app; simpl; lia).
    intros Hrest. destruct (IH _ _ _ _ Hrest) as (found & -> & Hfound).
    exists (pod :: found). rewrite <- app_assoc. split; [reflexivity|].
    constructor; assumption.
Qed.

(** GetPods never returns a non-nil error: every failure is a panic.
    When it returns, [listTasks] succeeded and the slice holds, in
    listing order, exactly what [getPodFromTask] gave for each task, one
    entry per task. *)
Theorem GetPods_returns_no_error `{Collaborators} {W} (p : Provider W) (w w' : W)
    (pods : list (option v1.Pod)) (err : option error) :
  GetPods p w = (w', Return (pods, err)) →
  err = None
  ∧ ∃ tasksPtr,
      listTasks p w = (w', Return (tasksPtr, None))
      ∧ Forall2 (λ t pod, getPodFromTask t = (pod, None)) (default [] tasksPtr) pods.
Proof.
  unfold GetPods, mbind, Go_bind.
  destruct (listTasks p w) as [w1 [[tasksPtr [e|]]|v]]; [discriminate| |discriminate].
  destruct tasksPtr as [tasks|]; simpl.
  - destruct (GetPods_loop 0 tasks (replicate (length tasks) None) w1)
      as [w2 [found|v]] eqn:Hloop; [|discriminate].
    intros [= <- <- <-]. split; [reflexivity|].
    pose proof (GetPods_loop_world tasks 0%nat (replicate (length tasks) None) w1) as Hw.
    rewrite Hloop in Hw. simpl in Hw. subst w2.
    exists (Some tasks). split; [reflexivity|].
    destruct (GetPods_loop_inv tasks [] found w1 w1 Hloop) as (found' & -> & Hfound).
    exact Hfound.
  - intros [= <- <- <-]. split; [reflexivity|].
    exists None. split; [reflexivity|constructor].
Qed.

Lemma GetPods_returns_no_error_witness :
  @None error = None
  ∧ ∃ tasksPtr,
      listTasks demo.provider demo.runningStore
      = (memstore.logCall memstore.CallList demo.runningStore, Return (tasksPtr, None))
      ∧ Forall2 (λ t pod, @getPodFromTask demo.collaborators t = (pod, None))
          (default [] tasksPtr) [Some demo.web].
Proof.
  apply (@GetPods_returns_no_error demo.collaborators _ demo.provider demo.runningStore).
  vm_compute. reflexivity.
Defined.

(** ** Looking up: where errors go *)

(** The only error GetPod returns is the task client's own, and only
    when the failed request came back with a status other than 404; no
    pod comes with it. *)
Theorem GetPod_error_is_remote_error `{Collaborators} {W} (p : Provider W)
    (namespace name : string) (w w' : W) (pod : option v1.Pod) (e : error) :
  GetPod p namespace name w = (w', Return (pod, Some e)) →
  pod = None
  ∧ ∃ task response,
      batch.Get (taskClient p) (JobID (batchConfig p)) (getTaskIDForPod namespace name) w
      = (w', (task, Some e))
      ∧ batch.Response task = Some response
      ∧ http.StatusCode response ≠ http.StatusNotFound.
Proof.
  unfold GetPod. rewrite run_call_bind.
  destruct (batch.Get _ _ _ w) as [w1 [task [err|]]]; simpl.
  - destruct (batch.Response task) as [response|] eqn:Hresponse; simpl; [|discriminate].
    rewrite run_mret_bind. case_bool_decide as Hcode; [discriminate|].
    intros [= <- <- <-]. split; [reflexivity|]. eauto.
  - destruct (getPodFromTask task) as [found [err|]]; [discriminate|].
    destruct (convertTaskToPodStatus task) as [[status|] ?], found; discriminate.
Qed.

Lemma GetPod_error_is_remote_error_witness :
  @None v1.Pod = None
  ∧ ∃ task response,
      batch.Get strict.failing "job" "default-web" () = ((), (task, Some demo.errUnavailable))
      ∧ batch.Response task = Some response
      ∧ http.StatusCode response ≠ http.StatusNotFound.
Proof.
  apply (@GetPod_error_is_remote_error demo.collaborators _
           (NewBatchProvider demo.config strict.failing demo.noFiles)
           "default" "web" () ()).
  reflexivity.
Defined.

(** A failed request that never got a response makes GetPod panic on
    the nil response instead of returning the error. *)
Theorem GetPod_without_response_panics `{Collaborators} {W} (p : Provider W)
    (namespace name : string) (w w' : W) (task : batch.CloudTask) (e : error) :
  batch.Get (taskClient p) (JobID (batchConfig p)) (getTaskIDForPod namespace name) w
  = (w', (task, Some e)) →
  batch.Response task = None →
  GetPod p namespace name w = (w', Panic NilDereference).
Proof.
  intros Hget Hresponse. unfold GetPod. round_trip Hget. rewrite Hresponse. reflexivity.
Qed.

Lemma GetPod_without_response_panics_witness :
  @GetPod demo.collaborators _ (NewBatchProvider demo.config strict.offline demo.noFiles)
    "default" "web" ()
  = ((), Panic NilDereference).
Proof.
  apply (@GetPod_without_response_panics demo.collaborators _
           (NewBatchProvider demo.config strict.offline demo.noFiles)
           "default" "web" () () (memstore.noTask None) demo.errUnavailable);
    reflexivity.
Defined.

(** ** Status of one pod *)

(** GetPodStatus is GetPod seen through the status: the same single
    lookup, the same error or panic, no status when there is no pod, and
    otherwise the status of the very pod GetPod returns. *)
Theorem GetPodStatus_follows_GetPod `{Collaborators} {W} (p : Provider W)
    (namespace name : string) (w : W) :
  GetPodStatus p namespace name w
  = ((GetPod p namespace name w).1,
     match (GetPod p namespace name w).2 with
     | Return (pod, None) => Return (v1.Status <$> pod, None)
     | Return (_, Some e) => Return (None, Some e)
     | Panic v => Panic v
     end).
Proof.
  unfold GetPodStatus, mbind, Go_bind.
  destruct (GetPod p namespace name w) as [w' [[[pod|] [e|]]|v]]; reflexivity.
Qed.

(** ** Container logs: errors, and the store's files *)

(** Whenever GetContainerLogs returns an error the text is empty, even
    if part of the file had been read, and the error is the file
    client's or the reader's. *)
Theorem GetContainerLogs_error_has_no_text `{Collaborators} {W} (p : Provider W)
    (namespace podName containerName : string) (tail : Z) (w w' : W)
    (text : string) (e : error) :
  GetContainerLogs p namespace podName containerName tail w = (w', Return (text, Some e)) →
  text = EmptyString
  ∧ ∃ reader,
      (batch.GetFromTask (fileClient p) (JobID (batchConfig p))
         (getTaskIDForPod namespace podName) ("wd/" +:+ containerName) w).1 = w'
      ∧ ((batch.GetFromTask (fileClient p) (JobID (batchConfig p))
            (getTaskIDForPod namespace podName) ("wd/" +:+ containerName) w).2
         = (reader, Some e)
         ∨ ∃ r partial,
             (batch.GetFromTask (fileClient p) (JobID (batchConfig p))
                (getTaskIDForPod namespace podName) ("wd/" +:+ containerName) w).2
             = (reader, None)
             ∧ batch.ReaderValue reader = Some r
             ∧ ioutil_ReadAll r = (partial, Some e)).
Proof.
  unfold GetContainerLogs. rewrite run_call_bind.
  destruct (batch.GetFromTask _ _ _ _ w) as [w1 [reader [err|]]]; simpl.
  - unfold mret, Go_ret. intros Hret. injection Hret as Hw Htext He. subst.
    split; [reflexivity|]. exists reader. split; [reflexivity|]. left. reflexivity.
  - destruct (batch.ReaderValue reader) as [[bytes [err|]]|] eqn:Hvalue; simpl.
    + rewrite run_mret_bind. unfold mret, Go_ret. intros Hret.
      injection Hret as Hw Htext He. subst.
      split; [reflexivity|]. exists reader. split; [reflexivity|].
      right. eexists _, bytes. repeat split; [exact Hvalue|reflexivity].
    + rewrite run_mret_bind. discriminate.
    + discriminate.
Qed.

Lemma GetContainerLogs_error_has_no_text_witness :
  EmptyString = EmptyString
  ∧ ∃ reader,
      (batch.GetFromTask strict.brokenFiles "job" "default-web" ("wd/" +:+ "main") ()).1 = ()
      ∧ ((batch.GetFromTask strict.brokenFiles "job" "default-web" ("wd/" +:+ "main") ()).2
         = (reader, Some strict.errShortRead)
         ∨ ∃ r partial,
             (batch.GetFromTask strict.brokenFiles "job" "default-web" ("wd/" +:+ "main") ()).2
             = (reader, None)
             ∧ batch.ReaderValue reader = Some r
             ∧ ioutil_ReadAll r = (partial, Some strict.errShortRead)).
Proof.
  apply (@GetContainerLogs_error_has_no_text demo.collaborators _
           (NewBatchProvider demo.config (demo.scripted None [] []) strict.brokenFiles)
           "default" "web" "main" 10 () ()).
  reflexivity.
Defined.

(** Against the store, GetContainerLogs makes one request, for the file
    [wd/<containerName>] of the derived task, and nothing else: a file
    that is there comes back whole, a file that is not comes back as the
    store's not-found error with an empty text. *)
Theorem GetContainerLogs_of_store `{Collaborators} (cfg : Config)
    (namespace podName containerName : string) (tail : Z) (s : memstore.Store) :
  GetContainerLogs (memstore.provider cfg) namespace podName containerName tail s
  = (memstore.logCall
       (memstore.CallGetFromTask (getTaskIDForPod namespace podName)
          ("wd/" +:+ containerName)) s,
     Return
       match memstore.files s !! (getTaskIDForPod namespace podName, "wd/" +:+ containerName) with
       | Some content => (content, None)
       | None => (EmptyString, Some memstore.errFileNotFound)
       end).
Proof.
  unfold GetContainerLogs. rewrite run_call_bind. simpl.
  unfold memstore.GetFromTask. simpl.
  destruct (memstore.files s !! _) as [content|]; reflexivity.
Qed.

(** ** Lookups do not write *)


(** ** Enumerating a whole job, for any page size *)

Lemma paginate_concat {A} (fuel size : nat) :
  ∀ l : list A, concat (memstore.paginate fuel size l) = l.
Proof.
  induction fuel as [|fuel IH]; intros [|x l]; simpl; try reflexivity.
  - rewrite app_nil_r. reflexivity.
  - f_equal. rewrite IH. apply take_drop.
Qed.

Lemma paginate_nonempty {A} (fuel size : nat) :
  ∀ l : list A, Forall (λ pg, pg ≠ []) (memstore.paginate fuel size l).
Proof.
  induction fuel as [|fuel IH]; intros [|x l]; simpl; repeat constructor;
    try discriminate. apply IH.
Qed.

Lemma wellPaged_nonempty (page : list batch.CloudTask) (pages : list (list batch.CloudTask)) :
  Forall (λ pg, pg ≠ []) (page :: pages) → wellPaged page pages.
Proof.
  revert page. induction pages as [|next pages IH]; intros page Hall; simpl; [done|].
  apply Forall_cons in Hall as [Hpage Hall]. split; [exact Hpage|apply IH, Hall].
Qed.

(** The store's listing, page by page, is what [listTasks] returns in
    one slice, whatever the page size. *)
Lemma memstore_listTasks (cfg : Config) (s : memstore.Store) :
  listTasks (memstore.provider cfg) s
  = (memstore.logCall memstore.CallList s,
     Return (Some (map_to_list (memstore.tasks s)).*2, None)).
Proof.
  pose proof (paginate_concat (length (map_to_list (memstore.tasks s)).*2)
                (memstore.pageSize s) (map_to_list (memstore.tasks s)).*2) as Hconcat.
  pose proof (paginate_nonempty (length (map_to_list (memstore.tasks s)).*2)
                (memstore.pageSize s) (map_to_list (memstore.tasks s)).*2) as Hpages.
  destruct (memstore.paginate _ _ _) as [|page pages] eqn:Hpaginate.
  - simpl in Hconcat. rewrite <- Hconcat.
    change (listTasks (memstore.provider cfg))
      with (NewBatchProvider_listTasks cfg memstore.taskClient).
    apply (NewBatchProvider_listTasks_drains cfg memstore.taskClient s _ [] []); [|done].
    simpl. unfold memstore.List. simpl. rewrite <- Hconcat at 1 2. simpl.
    reflexivity.
  - simpl in Hconcat. rewrite <- Hconcat.
    change (listTasks (memstore.provider cfg))
      with (NewBatchProvider_listTasks cfg memstore.taskClient).
    apply (NewBatchProvider_listTasks_drains cfg memstore.taskClient s _ page pages).
    + simpl. unfold memstore.List. simpl. rewrite Hpaginate. reflexivity.
    + apply wellPaged_nonempty, Hpages.
Qed.

(** When every task of the job embeds a pod, GetPods returns as many
    pods as the job has tasks, each the pod its task embeds, however the
    store cuts the listing into pages. *)
Theorem GetPods_of_store `{Collaborators} (cfg : Config) (s : memstore.Store) :
  map_Forall (λ _ task, ∃ pod, embeds task pod) (memstore.tasks s) →
  ∃ found,
    GetPods (memstore.provider cfg) s
    = (memstore.logCall memstore.CallList s, Return (Some <$> found, None))
    ∧ length found = size (memstore.tasks s)
    ∧ Forall2 embeds (map_to_list (memstore.tasks s)).*2 found.
Proof.
  intros Hall.
  assert (Hlisting : Forall (λ task, ∃ pod, embeds task pod)
                       (map_to_list (memstore.tasks s)).*2).
  { apply Forall_fmap, Forall_forall. intros [taskID task] Hin.
    apply elem_of_map_to_list in Hin. exact (Hall taskID task Hin). }
  apply Forall_exists_Forall2_l in Hlisting as [found Hfound].
  exists found. split; [|split; [|exact Hfound]].
  - apply (GetPods_embedded _ s _ _ found (memstore_listTasks cfg s) Hfound).
  - rewrite <- (Forall2_length _ _ _ Hfound), length_fmap. apply length_map_to_list.
Qed.

Lemma GetPods_of_store_witness :
  ∃ found,
    @GetPods demo.collaborators _ (memstore.provider demo.config) strict.fullStore
    = (memstore.logCall memstore.CallList strict.fullStore, Return (Some <$> found, None))
    ∧ length found = size (memstore.tasks strict.fullStore)
    ∧ Forall2 (@embeds demo.collaborators)
        (map_to_list (memstore.tasks strict.fullStore)).*2 found.
Proof.
  apply (@GetPods_of_store demo.collaborators demo.config strict.fullStore).
  destruct demo_embeds as (Hweb & Hdb & Hjob1).
  unfold strict.fullStore. simpl.
  repeat apply map_Forall_insert_2; [eauto..|apply map_Forall_empty].
Defined.

(** ** Updating is not atomic *)

(** When the command generator fails for a pod whose task is in the job,
    UpdatePod has already deleted the task by the time it returns the
    generator's error: the identifier is gone from the job and nothing
    was added in its place. *)
Theorem UpdatePod_failed_create_loses_task `{Collaborators} (cfg : Config) (pod : v1.Pod)
    (s : memstore.Store) (podCommand : string) (e : error) :
  GetBashCommand {| pod2docker.Containers := v1.Containers (v1.Spec pod);
                    pod2docker.PodName := v1.Name pod;
                    pod2docker.Volumes := v1.Volumes (v1.Spec pod) |}
  = (podCommand, Some e) →
  is_Some (memstore.tasks s !! getTaskIDForPod (v1.Namespace pod) (v1.Name pod)) →
  ∃ s',
    UpdatePod (memstore.provider cfg) pod s = (s', Return (Some e))
    ∧ memstore.tasks s' = delete (getTaskIDForPod (v1.Namespace pod) (v1.Name pod))
                            (memstore.tasks s)
    ∧ memstore.calls s'
      = memstore.calls s
        ++ [memstore.CallDelete (getTaskIDForPod (v1.Namespace pod) (v1.Name pod))].
Proof.
  intros Hcmd [old Hold].
  set (taskID := getTaskIDForPod (v1.Namespace pod) (v1.Name pod)) in *.
  assert (Hdelete : DeletePod (memstore.provider cfg) pod s
                    = (memstore.setTasks (delete taskID (memstore.tasks s))
                         (memstore.logCall (memstore.CallDelete taskID) s),
                       Return None)).
  { rewrite DeletePod_run. simpl. unfold memstore.Delete. simpl.
    fold taskID. rewrite Hold. reflexivity. }
  exists (memstore.setTasks (delete taskID (memstore.tasks s))
            (memstore.logCall (memstore.CallDelete taskID) s)).
  split; [|split; reflexivity].
  set (s1 := memstore.setTasks _ _) in *.
  assert (Hcreate : CreatePod (memstore.provider cfg) pod s1 = (s1, Return (Some e))).
  { apply CreatePod_error_is_command_error. rewrite Hcmd. split; reflexivity. }
  unfold UpdatePod. rewrite (run_bind_Return _ _ _ _ _ Hdelete).
  rewrite (run_bind_Return _ _ _ _ _ Hcreate). reflexivity.
Qed.

Lemma UpdatePod_failed_create_loses_task_witness :
  ∃ s',
    @UpdatePod strict.collaborators _ (memstore.provider demo.config) strict.bare
      strict.bareStore
    = (s', Return (Some strict.errNoContainers))
    ∧ memstore.tasks s'
      = delete (@getTaskIDForPod strict.collaborators "default" "bare")
          (memstore.tasks strict.bareStore)
    ∧ memstore.calls s'
      = memstore.calls strict.bareStore
        ++ [memstore.CallDelete (@getTaskIDForPod strict.collaborators "default" "bare")].
Proof.
  apply (@UpdatePod_failed_create_loses_task strict.collaborators demo.config strict.bare
           strict.bareStore EmptyString strict.errNoContainers).
  - reflexivity.
  - eexists. vm_compute. reflexivity.
Defined.
